(** * dom.utils.csv_preview: the delimited-text analyzer of the contest wizard

    A shallow embedding of [src/dom/utils/csv_preview.py] and the properties
    its specification states about it.

    Conventions of the embedding.
    - A Python [str] is a Stdlib [string]; a character is its code point, so
      the development covers the code points 0..255.  The tables of
      [str.strip], [str.lower] and [int] below are the ones of CPython on
      that range.
    - A Python [int] is a [Z]; [None] is [option]'s [None].
    - An exception is a value of [exn]; code that may raise returns a
      [result].  Code that prints threads the console's output through the
      monad [M].
    - The file system and the [csv] module are outside the analyzer: what
      [csv.reader] yields for a path and a delimiter is a Section variable.
      It stands for a file that opens and decodes as UTF-8; the errors of
      a file that does not are raised by the file system, not by this
      module, and are not modelled.
    - The rich console records what [console.print] is given, after it
      has read the texts as console markup: a text that rich refuses makes
      [console.print] raise [MarkupError], and nothing is printed.  How
      rich lays a table out is not part of the module. *)

From Stdlib Require Import ZArith List String Ascii Bool Lia.
From Stdlib Require Import DecimalString DecimalPos.
Import ListNotations.

Open Scope string_scope.
Open Scope Z_scope.

(* ================================================================= *)
(** ** Exceptions *)

Inductive exn : Type :=
| ValueError (msg : string)
| MarkupError.

Inductive result (A : Type) : Type :=
| Ok (a : A)
| Raise (e : exn).

Arguments Ok {A} a.
Arguments Raise {A} e.

(* ================================================================= *)
(** ** The Python built-ins the module calls *)

Module Py.

(** [len] of a list and of a string. *)
Definition len {A : Type} (l : list A) : Z := Z.of_nat (List.length l).

Definition code (c : ascii) : Z := Z.of_N (N_of_ascii c).

(** [str.isspace] on one character: TAB..CR, FS..US, SPACE, NEL, NBSP. *)
Definition isspace (c : ascii) : bool :=
  let n := code c in
  ((9 <=? n) && (n <=? 13)) || ((28 <=? n) && (n <=? 32))
  || (n =? 133) || (n =? 160).

(** Dropping a run of characters at the left and at the right end. *)
Fixpoint lstrip_by (p : ascii -> bool) (s : string) : string :=
  match s with
  | EmptyString => EmptyString
  | String c t => if p c then lstrip_by p t else s
  end.

Fixpoint rstrip_by (p : ascii -> bool) (s : string) : string :=
  match s with
  | EmptyString => EmptyString
  | String c t =>
      match rstrip_by p t with
      | EmptyString => if p c then EmptyString else String c EmptyString
      | t' => String c t'
      end
  end.

(** [s.strip()] *)
Definition strip (s : string) : string :=
  rstrip_by isspace (lstrip_by isspace s).

Fixpoint mem_char (c : ascii) (chars : string) : bool :=
  match chars with
  | EmptyString => false
  | String d t => Ascii.eqb c d || mem_char c t
  end.

(** [s.lstrip(chars)]: every leading character that occurs in [chars]
    is dropped, however many there are. *)
Definition lstrip (chars : string) (s : string) : string :=
  lstrip_by (fun c => mem_char c chars) s.

(** [str.lower]: A..Z and the Latin-1 capitals (all of C0..DE but the
    multiplication sign D7) move up by 32. *)
Definition lower_char (c : ascii) : ascii :=
  let n := code c in
  if ((65 <=? n) && (n <=? 90))
     || ((192 <=? n) && (n <=? 222) && negb (n =? 215))
  then ascii_of_N (Z.to_N (n + 32))
  else c.

Fixpoint lower (s : string) : string :=
  match s with
  | EmptyString => EmptyString
  | String c t => String (lower_char c) (lower t)
  end.

(** [sep.join(l)] *)
Fixpoint join (sep : string) (l : list string) : string :=
  match l with
  | [] => EmptyString
  | [x] => x
  | x :: t => x ++ sep ++ join sep t
  end.

(** [sub in s] on strings: [sub] occurs in [s] as a contiguous run. *)
Fixpoint contains (sub s : string) : bool :=
  String.prefix sub s
  || match s with
     | EmptyString => false
     | String _ t => contains sub t
     end.

(** The decimal numeral of an integer: what [str(n)] and [f"{n}"] give
    when they give a text. *)
Definition str (n : Z) : string := NilEmpty.string_of_int (Z.to_int n).

(** [max] of a sequence of integers; the empty sequence raises. *)
Definition max (l : list Z) : result Z :=
  match l with
  | [] => Raise (ValueError "max() arg is an empty sequence")
  | x :: t => Ok (fold_left Z.max t x)
  end.

(** [range(a, b)] and [enumerate(l, start)]. *)
Definition range (a b : Z) : list Z :=
  List.map (fun i => a + Z.of_nat i) (seq 0 (Z.to_nat (b - a))).

Fixpoint enumerate {A : Type} (start : Z) (l : list A) : list (Z * A) :=
  match l with
  | [] => []
  | x :: t => (start, x) :: enumerate (start + 1) t
  end.

(** *** [int(s)] in base 10

    CPython first maps the non-ASCII white space to a blank; it then skips
    the blanks TAB..CR and SPACE at both ends (FS..US are white space for
    [strip] but not here), reads one optional sign, and a run of decimal
    digits in which single underscores may separate digits.  More digits
    than [int_max_str_digits] are refused.  Every failure is a
    [ValueError]. *)

Definition int_space (c : ascii) : bool :=
  let n := code c in
  ((9 <=? n) && (n <=? 13)) || (n =? 32) || (n =? 133) || (n =? 160).

Definition digit_value (c : ascii) : option Z :=
  let n := code c in
  if (48 <=? n) && (n <=? 57) then Some (n - 48) else None.

(** The default of [sys.get_int_max_str_digits()]. *)
Definition int_max_str_digits : nat := 4300.

(** The scan of the digits: [prev_us] tells that the previous character
    was an underscore, [digits] counts the digits read, [acc] is their
    value.  It stops at the first character that is neither a digit nor
    an underscore and gives back the rest. *)
Fixpoint scan_digits (s : string) (prev_us : bool) (digits : nat) (acc : Z)
  : option (Z * nat * string) :=
  match s with
  | EmptyString => if prev_us then None else Some (acc, digits, s)
  | String c t =>
      if Ascii.eqb c "_" then
        if prev_us then None else scan_digits t true digits acc
      else
        match digit_value c with
        | Some d => scan_digits t false (S digits) (10 * acc + d)
        | None => if prev_us then None else Some (acc, digits, s)
        end
  end.

(** [str(n)] and [f"{n}"]: an integer of more than [int_max_str_digits]
    digits, that is one from [str_limit] on in absolute value, is refused
    with a [ValueError]. *)
Definition str_limit : Z := 10 ^ Z.of_nat int_max_str_digits.

Definition str_int (n : Z) : result string :=
  if Z.abs n <? str_limit then Ok (str n)
  else Raise (ValueError "Exceeds the limit for integer string conversion").

Definition invalid_literal : exn :=
  ValueError "invalid literal for int() with base 10".

Definition int (s : string) : result Z :=
  let s := lstrip_by int_space s in
  let '(sign, s) :=
    match s with
    | String "+" t => (1, t)
    | String "-" t => (-1, t)
    | _ => (1, s)
    end in
  match s with
  | String "_" _ => Raise invalid_literal
  | _ =>
      match scan_digits s false 0%nat 0 with
      | None => Raise invalid_literal
      | Some (acc, digits, rest) =>
          if (digits =? 0)%nat then Raise invalid_literal
          else if (int_max_str_digits <? digits)%nat then
            Raise (ValueError
              "Exceeds the limit for integer string conversion")
          else
            match lstrip_by int_space rest with
            | EmptyString => Ok (sign * acc)
            | _ => Raise invalid_literal
            end
      end
  end.

End Py.

(* ================================================================= *)
(** ** rich's console markup

    [console.print] reads every text it is given, and the title, the
    caption, the column headers and the cells of a table, as console
    markup ([rich.markup.render]).  The tags of a text are the matches,
    found from left to right, of its tag pattern: any number of
    backslashes, an opening bracket, one character among a-z, #, / and @,
    then characters other than an opening bracket up to the first closing
    bracket.  An odd number of backslashes makes the match plain text.  An
    opening tag is pushed on a stack, a closing tag takes the tag it
    names off the stack, and the bare closing tag takes the top; a closing tag that
    finds nothing to take raises [MarkupError].  Tags left open are
    closed at the end of the text.

    Two parts of rich stay parameters: [Style.normalize], which gives a
    style name its canonical spelling, and the evaluation of the
    parameters of a handler tag (one whose name starts with @), which
    may fail. *)

Module Rich.

Record Tag : Type := mkTag {
  tag_name : string;
  parameters : option string
}.

(** The first character of a tag: a-z, #, / or @. *)
Definition tag_start (c : ascii) : bool :=
  let n := Py.code c in
  ((97 <=? n) && (n <=? 122)) || (n =? 35) || (n =? 47) || (n =? 64).

(** The rest of a tag: the characters up to the first closing bracket,
    none of them an opening bracket; and what follows that bracket. *)
Fixpoint tag_body (s : string) : option (string * string) :=
  match s with
  | EmptyString => None
  | String c t =>
      if Ascii.eqb c "]" then Some (EmptyString, t)
      else if Ascii.eqb c "[" then None
      else
        match tag_body t with
        | Some (body, rest) => Some (String c body, rest)
        | None => None
        end
  end.

(** A match of the pattern at the start of [s], after [escapes]
    backslashes: the number of backslashes, the text of the tag and
    what follows the match. *)
Fixpoint match_tag (escapes : nat) (s : string)
  : option (nat * string * string) :=
  match s with
  | EmptyString => None
  | String c t =>
      if Ascii.eqb c "\" then match_tag (S escapes) t
      else if Ascii.eqb c "[" then
        match t with
        | EmptyString => None
        | String d u =>
            if tag_start d then
              match tag_body u with
              | Some (body, rest) => Some (escapes, String d body, rest)
              | None => None
              end
            else None
        end
      else None
  end.

(** [RE_TAGS.finditer]: the matches from left to right, the search
    going on behind each match.  A step takes one character at least,
    so the length of the text is fuel enough. *)
Fixpoint find_tags (fuel : nat) (s : string) : list (nat * string) :=
  match fuel with
  | O => []
  | S fuel' =>
      match match_tag 0 s with
      | Some (escapes, tag_text, rest) =>
          (escapes, tag_text) :: find_tags fuel' rest
      | None =>
          match s with
          | EmptyString => []
          | String _ t => find_tags fuel' t
          end
      end
  end.

(** [tag_text.partition] at the equals sign: the name, and the
    parameters if there is such a sign. *)
Fixpoint partition_eq (s : string) : string * option string :=
  match s with
  | EmptyString => (EmptyString, None)
  | String c t =>
      if Ascii.eqb c "=" then (EmptyString, Some t)
      else let '(text, params) := partition_eq t in (String c text, params)
  end.

(** [_parse], as far as the tags go: a match behind an odd number of
    backslashes is text, any other is a tag. *)
Definition parse (markup : string) : list Tag :=
  flat_map
    (fun '(escapes, tag_text) =>
       if Nat.odd escapes then []
       else let '(text, params) := partition_eq tag_text in [mkTag text params])
    (find_tags (String.length markup) markup).

(** [pop_style]: the topmost tag of that name is taken off the stack. *)
Fixpoint pop_style (style_name : string) (style_stack : list Tag)
  : option (Tag * list Tag) :=
  match style_stack with
  | [] => None
  | tag :: below =>
      if String.eqb (tag_name tag) style_name then Some (tag, below)
      else
        match pop_style style_name below with
        | Some (found, below') => Some (found, tag :: below')
        | None => None
        end
  end.

Section Render.

Variable normalize : string -> string.
Variable handler_parameters_ok : string -> bool.

(** A tag that was closed: the parameters of a handler tag are
    evaluated. *)
Definition closed_ok (open_tag : Tag) : bool :=
  if String.prefix "@" (tag_name open_tag) then
    match parameters open_tag with
    | None => true
    | Some EmptyString => true
    | Some params => handler_parameters_ok params
    end
  else true.

(** The loop of [render] over the tags: [false] stands for
    [MarkupError]. *)
Fixpoint render (tags : list Tag) (style_stack : list Tag) : bool :=
  match tags with
  | [] => true
  | tag :: tags' =>
      match tag_name tag with
      | String "/" closed =>
          let style_name := Py.strip closed in
          let popped :=
            match style_name with
            | EmptyString =>
                match style_stack with
                | [] => None
                | top :: below => Some (top, below)
                end
            | _ => pop_style (normalize style_name) style_stack
            end in
          match popped with
          | None => false
          | Some (open_tag, style_stack') =>
              closed_ok open_tag && render tags' style_stack'
          end
      | _ =>
          render tags'
                 (mkTag (normalize (tag_name tag)) (parameters tag)
                  :: style_stack)
      end
  end.

Definition markup_ok (markup : string) : bool := render (parse markup) [].

End Render.

End Rich.

(* ================================================================= *)
(** ** The console and the monad of printing code *)

(** A column and a table of [rich.table.Table], as far as the module
    fills them in. *)
Record Column : Type := mkColumn {
  header : string;
  style : option string;
  width : option Z
}.

Record Table : Type := mkTable {
  title : string;
  caption : string;
  show_header : bool;
  header_style : string;
  columns : list Column;
  rows_of : list (list string)
}.

Definition add_column (t : Table) (label : string) (sty : option string)
    (w : option Z) : Table :=
  mkTable (title t) (caption t) (show_header t) (header_style t)
          (columns t ++ [mkColumn label sty w])%list (rows_of t).

Definition add_row (t : Table) (cells : list string) : Table :=
  mkTable (title t) (caption t) (show_header t) (header_style t)
          (columns t) (rows_of t ++ [cells])%list.

(** What [console.print] was given: a line of markup or a table. *)
Inductive renderable : Type :=
| Markup (s : string)
| Rendered (t : Table).

(** The console is the list of what was printed, oldest first. *)
Definition Console : Type := list renderable.

(** A computation that may print and may raise. *)
Definition M (A : Type) : Type := Console -> result A * Console.

Definition ret {A : Type} (a : A) : M A := fun out => (Ok a, out).

Definition bind {A B : Type} (m : M A) (k : A -> M B) : M B :=
  fun out =>
    match m out with
    | (Ok a, out') => k a out'
    | (Raise e, out') => (Raise e, out')
    end.

Definition lift {A : Type} (r : result A) : M A := fun out => (r, out).

(** [try: body except ValueError: handler]: any other exception goes
    through. *)
Definition try_except_ValueError {A : Type} (body : M A) (handler : M A) : M A :=
  fun out =>
    match body out with
    | (Ok a, out') => (Ok a, out')
    | (Raise (ValueError _), out') => handler out'
    | (Raise e, out') => (Raise e, out')
    end.

(** A computation that may raise and does not print. *)
Definition and_then {A B : Type} (r : result A) (k : A -> result B)
  : result B :=
  match r with
  | Ok a => k a
  | Raise e => Raise e
  end.

Declare Scope py_scope.
Delimit Scope py_scope with py.
Notation "x <- m ;; k" := (bind m (fun x => k))
  (at level 61, m at next level, right associativity) : py_scope.
Notation "m ;;; k" := (bind m (fun _ => k))
  (at level 61, right associativity) : py_scope.
Notation "x <~ r ;; k" := (and_then r (fun x => k))
  (at level 61, r at next level, right associativity) : py_scope.

(* ================================================================= *)
(** ** The analyzer *)

(** [pathlib.Path]: the module opens it and reads its [name]. *)
Record Path : Type := mkPath {
  location : string;
  name : string
}.

(** A row, raw from the reader or trimmed by [read_csv_rows]. *)
Definition Row : Type := list string.

(** Sample sources used to exercise the analyzer: a path, and the reader
    of a file system in which every file holds the given records. *)
Definition teams_csv : Path := mkPath "/tmp/teams.csv" "teams.csv".

Definition reader_of (records : list Row) : Path -> string -> list Row :=
  fun _ _ => records.

Definition ragged_file : list Row :=
  [ ["a"; "b"]; ["c"; "d"; "e"; "f"]; ["g"; "h"; "i"] ].

Definition header_file : list Row :=
  [ ["id"; "name"; "affiliation"; "country"];
    ["1"; "Team Alpha"; "University A"; "USA"] ].

Definition split_keyword_file : list Row :=
  [ ["Ravi"; "Delhi"]; ["Anna"; "Oslo"] ].

(** Sample stand-ins for the two parameters of rich: style names spelt
    in lower case without surrounding white space, which is what
    [Style.normalize] falls back to, and handler parameters that always
    evaluate. *)
Definition sample_normalize (style : string) : string :=
  Py.lower (Py.strip style).

Definition sample_handlers (params : string) : bool := true.

Section Analyzer.

(** [csv_reader file_path delimiter] is the sequence of records that
    [csv.reader(f, delimiter=delimiter)] yields on the file at
    [file_path], opened as UTF-8 text with [newline=""]. *)
Variable csv_reader : Path -> string -> list Row.

(** [normalize] is rich's [Style.normalize]; [handler_parameters_ok]
    tells whether the parameters of a handler tag evaluate. *)
Variable normalize : string -> string.
Variable handler_parameters_ok : string -> bool.

(** The texts of a console markup that rich reads without error. *)
Definition markup_ok (markup : string) : bool :=
  Rich.markup_ok normalize handler_parameters_ok markup.

(** What [console.print] takes: a text of good markup, or a table whose
    title, caption, column headers and cells all are. *)
Definition accepts (r : renderable) : bool :=
  match r with
  | Markup s => markup_ok s
  | Rendered t =>
      markup_ok (title t) && markup_ok (caption t)
      && forallb (fun column => markup_ok (header column)) (columns t)
      && forallb (forallb markup_ok) (rows_of t)
  end.

(** [console.print(r)]: on a markup error nothing is printed. *)
Definition console_print (r : renderable) : M unit :=
  fun out =>
    if accepts r then (Ok tt, (out ++ [r])%list) else (Raise MarkupError, out).

(** [max_rows and idx >= max_rows]: [None] and [0] are both false. *)
Definition limit_reached (max_rows : option Z) (idx : Z) : bool :=
  match max_rows with
  | None => false
  | Some m => negb (m =? 0) && (idx >=? m)
  end.

(** The loop of [read_csv_rows] over [enumerate(reader)], from index
    [idx] on, with the rows appended so far. *)
Fixpoint read_loop (max_rows : option Z) (idx : Z) (reader : list Row)
    (rows : list Row) : list Row :=
  match reader with
  | [] => rows
  | row :: reader' =>
      if limit_reached max_rows idx then rows
      else read_loop max_rows (idx + 1) reader'
                     (rows ++ [List.map Py.strip row])%list
  end.

Definition read_csv_rows (file_path : Path) (delimiter : string)
    (max_rows : option Z) : list Row :=
  read_loop max_rows 0 (csv_reader file_path delimiter) [].

Fixpoint count_loop (reader : list Row) (count : Z) : Z :=
  match reader with
  | [] => count
  | _ :: reader' => count_loop reader' (count + 1)
  end.

Definition count_csv_rows (file_path : Path) (delimiter : string) : Z :=
  count_loop (csv_reader file_path delimiter) 0.

Definition header_keywords : list string :=
  [ "id"; "name"; "team"; "affiliation"; "organization"; "country";
    "university"; "college"; "school"; "institution" ].

Definition detect_header_row (file_path : Path) (delimiter : string) : bool :=
  let rows := read_csv_rows file_path delimiter (Some 5) in
  if Py.len rows <? 2 then false
  else
    let first_row := nth 0 rows [] in
    let first_row_lower := List.map Py.lower first_row in
    existsb (fun keyword => Py.contains keyword (Py.join " " first_row_lower))
            header_keywords.

Definition auto_detect_data_range (file_path : Path) (delimiter : string)
    : Z * Z :=
  let total_rows := count_csv_rows file_path delimiter in
  let has_header := detect_header_row file_path delimiter in
  let start_row := if has_header then 2 else 1 in
  let end_row := total_rows in
  (start_row, end_row).

Definition get_column_count (file_path : Path) (delimiter : string)
    : result Z :=
  let rows := read_csv_rows file_path delimiter (Some 5) in
  match rows with
  | [] => Ok 0
  | _ => Py.max (List.map Py.len rows)
  end.

(** *** The preview *)

(** [for x in l: ...] over a table, with a body that may raise. *)
Fixpoint for_each {X : Type} (l : list X)
    (body : Table -> X -> result Table) (table : Table) : result Table :=
  match l with
  | [] => Ok table
  | x :: l' =>
      match body table x with
      | Ok table' => for_each l' body table'
      | Raise e => Raise e
      end
  end.

(** The loops that fill the table: the header cells as column labels,
    the columns beyond the header or the generic columns, and the data
    rows.  Every number is written with [str]. *)
Definition header_columns_loop (show_column_numbers : bool) (first_row : Row)
    (table : Table) : result Table :=
  for_each (Py.enumerate 0 first_row)
    (fun table '(col_idx, header_name) =>
       (col_label <~
          (if show_column_numbers
           then number <~ Py.str_int (col_idx + 1) ;;
                Ok (header_name ++ " (Col " ++ number ++ ")")
           else Ok header_name) ;;
        Ok (add_column table col_label
                       (Some (if col_idx =? 0 then "green" else "")) None))%py)
    table.

Definition padding_columns_loop (show_column_numbers : bool)
    (from num_columns : Z) (table : Table) : result Table :=
  for_each (Py.range from num_columns)
    (fun table col_idx =>
       (number <~ Py.str_int (col_idx + 1) ;;
        let col_label :=
          if show_column_numbers
          then "Col " ++ number
          else "Column " ++ number in
        Ok (add_column table col_label None None))%py)
    table.

Definition generic_columns_loop (show_column_numbers : bool)
    (num_columns : Z) (table : Table) : result Table :=
  if show_column_numbers then
    for_each (Py.range 0 num_columns)
      (fun table col_idx =>
         (number <~ Py.str_int (col_idx + 1) ;;
          Ok (add_column table ("Col " ++ number)
                         (Some (if col_idx =? 0 then "green" else "")) None))%py)
      table
  else
    for_each (Py.range 0 num_columns)
      (fun table col_idx =>
         (number <~ Py.str_int (col_idx + 1) ;;
          Ok (add_column table ("Column " ++ number) None None))%py)
      table.

Definition data_rows_loop (num_columns : Z) (start : Z) (rows : list Row)
    (table : Table) : result Table :=
  for_each (Py.enumerate start rows)
    (fun table '(row_idx, row) =>
       let padded_row :=
         (row ++ repeat "" (Z.to_nat (num_columns - Py.len row)))%list in
       (number <~ Py.str_int row_idx ;;
        Ok (add_row table (number :: padded_row)))%py)
    table.

(** The same loops when every number can be written: the table they
    build, without the error path. *)
Definition header_columns (show_column_numbers : bool) (first_row : Row)
    (table : Table) : Table :=
  fold_left
    (fun table '(col_idx, header_name) =>
       let col_label :=
         if show_column_numbers
         then header_name ++ " (Col " ++ Py.str (col_idx + 1) ++ ")"
         else header_name in
       add_column table col_label
                  (Some (if col_idx =? 0 then "green" else "")) None)
    (Py.enumerate 0 first_row) table.

Definition padding_columns (show_column_numbers : bool) (from num_columns : Z)
    (table : Table) : Table :=
  fold_left
    (fun table col_idx =>
       let col_label :=
         if show_column_numbers
         then "Col " ++ Py.str (col_idx + 1)
         else "Column " ++ Py.str (col_idx + 1) in
       add_column table col_label None None)
    (Py.range from num_columns) table.

Definition generic_columns (show_column_numbers : bool) (num_columns : Z)
    (table : Table) : Table :=
  if show_column_numbers then
    fold_left
      (fun table col_idx =>
         add_column table ("Col " ++ Py.str (col_idx + 1))
                    (Some (if col_idx =? 0 then "green" else "")) None)
      (Py.range 0 num_columns) table
  else
    fold_left
      (fun table col_idx =>
         add_column table ("Column " ++ Py.str (col_idx + 1)) None None)
      (Py.range 0 num_columns) table.

Definition data_rows (num_columns : Z) (start : Z) (rows : list Row)
    (table : Table) : Table :=
  fold_left
    (fun table '(row_idx, row) =>
       let padded_row :=
         (row ++ repeat "" (Z.to_nat (num_columns - Py.len row)))%list in
       add_row table (Py.str row_idx :: padded_row))
    (Py.enumerate start rows) table.

Definition is_empty {A : Type} (l : list A) : bool :=
  match l with [] => true | _ => false end.

Definition preview_csv (file_path : Path) (delimiter : string)
    (max_rows : Z) (show_column_numbers : bool) (has_header : option bool)
    : M bool :=
  let rows := read_csv_rows file_path delimiter (Some max_rows) in
  let total_rows := count_csv_rows file_path delimiter in
  let has_header :=
    match has_header with
    | None => detect_header_row file_path delimiter
    | Some h => h
    end in
  if is_empty rows then
    (console_print (Markup "[yellow]Warning: CSV file is empty[/yellow]") ;;;
     ret false)%py
  else
    (num_columns <-
       (if is_empty rows then ret 0
        else lift (Py.max (List.map Py.len rows))) ;;
     shown <- lift (Py.str_int (Py.len rows)) ;;
     total <- lift (Py.str_int total_rows) ;;
     let table :=
       mkTable ("CSV Preview: " ++ name file_path)
               ("Showing " ++ shown ++ " of " ++ total ++ " rows")
               true "bold cyan" [] [] in
     let table := add_column table "Row" (Some "dim") (Some 4) in
     table <-
       lift
         (if has_header && negb (is_empty rows) then
            let first_row := nth 0 rows [] in
            (table <~ header_columns_loop show_column_numbers first_row
                                          table ;;
             table <~ padding_columns_loop show_column_numbers
                                           (Py.len first_row) num_columns
                                           table ;;
             data_rows_loop num_columns 2 (tl rows) table)%py
          else
            (table <~ generic_columns_loop show_column_numbers num_columns
                                           table ;;
             data_rows_loop num_columns 1 rows table)%py) ;;
     console_print (Rendered table) ;;;
     ret has_header)%py.

(** *** The column index validator *)

Definition in_range (col_idx num_columns : Z) : bool :=
  (1 <=? col_idx) && (col_idx <=? num_columns).

Definition validate_column_index (column_str : string) (num_columns : Z)
    : M (option Z) :=
  let column_str := Py.lstrip "$" (Py.strip column_str) in
  try_except_ValueError
    (col_idx <- lift (Py.int column_str) ;;
     if in_range col_idx num_columns then ret (Some col_idx)
     else
       shown_idx <- lift (Py.str_int col_idx) ;;
       shown_count <- lift (Py.str_int num_columns) ;;
       console_print
         (Markup ("[red]Column " ++ shown_idx ++ " is out of range (1-"
                  ++ shown_count ++ ")[/red]")) ;;;
       ret None)%py
    (console_print
       (Markup ("[red]Invalid column number: " ++ column_str ++ "[/red]")) ;;;
     ret None)%py.

(* =============================================================== *)
(** ** The specification's own words, where they are compared with
       the code *)

(** Column Index Validator, as the specification words it: one optional
    leading marker is removed, then the rest is parsed. *)
Definition strip_one_marker (s : string) : string :=
  match s with
  | String c t => if Ascii.eqb c "$" then t else s
  | EmptyString => s
  end.

Definition validate_as_specified (s : string) (n : Z) : option Z :=
  match Py.int (strip_one_marker (Py.strip s)) with
  | Ok v => if in_range v n then Some v else None
  | Raise _ => None
  end.

(** Header Detector, as the specification words it: the keywords are
    looked for in the lower-cased concatenation of the first row's
    cells. *)
Definition concatenation (cells : list string) : string :=
  fold_right String.append EmptyString cells.

Definition detect_header_as_specified (file_path : Path)
    (delimiter : string) : bool :=
  let rows := read_csv_rows file_path delimiter None in
  if (List.length rows <? 2)%nat then false
  else
    existsb
      (fun keyword =>
         Py.contains keyword (Py.lower (concatenation (nth 0 rows []))))
      header_keywords.

(** The largest cell count of some rows, 0 when there is none. *)
Definition max_cells (rows : list Row) : Z :=
  fold_right (fun row m => Z.max (Py.len row) m) 0 rows.

(** A cell is trimmed when it neither starts nor ends with white space. *)
Definition first_char (s : string) : option ascii :=
  match s with
  | EmptyString => None
  | String c _ => Some c
  end.

Fixpoint last_char (s : string) : option ascii :=
  match s with
  | EmptyString => None
  | String c EmptyString => Some c
  | String _ t => last_char t
  end.

Definition is_space_opt (c : option ascii) : bool :=
  match c with
  | None => false
  | Some c => Py.isspace c
  end.

Definition trimmed (cell : string) : bool :=
  negb (is_space_opt (first_char cell)) && negb (is_space_opt (last_char cell)).

(* =============================================================== *)
(** ** The wizard's use of the analyzer

    [initialize_contest] of [src/dom/core/services/init/contest.py] asks
    its questions through [ask], which belongs to the prompting layer.
    Below, [answers] are the values the successive calls of [ask] return;
    what [ask] itself prints is not recorded. *)

(** How far a prompting loop has come when the answers so far are used
    up: it has ended with a value, or it is asking again. *)
Inductive asked (A : Type) : Type :=
| Answered (a : A)
| Asking.

Arguments Answered {A} a.
Arguments Asking {A}.

(** Lines 133-141 (name column) and 143-151 (affiliation column):
    [while column is None: column = validate_column_index(ask(...), n)]. *)
Fixpoint ask_required_column (answers : list string) (num_columns : Z)
    : M (asked Z) :=
  match answers with
  | [] => ret Asking
  | name_input :: answers' =>
      (name_column <- validate_column_index name_input num_columns ;;
       match name_column with
       | Some column => ret (Answered column)
       | None => ask_required_column answers' num_columns
       end)%py
  end.

(** Lines 153-170 (country column): an empty answer skips the column,
    any other answer is validated, and a rejected one is asked again. *)
Fixpoint ask_country_column (answers : list string) (num_columns : Z)
    : M (asked (option Z)) :=
  match answers with
  | [] => ret Asking
  | country_input :: answers' =>
      if String.eqb country_input "" then ret (Answered None)
      else
        (country_column <- validate_column_index country_input num_columns ;;
         match country_column with
         | Some column => ret (Answered (Some column))
         | None => ask_country_column answers' num_columns
         end)%py
  end.

(** Lines 173-176: the row range proposed to the user, and the number of
    teams announced with it. *)
Definition detected_range (has_header : bool) (total_rows : Z) : Z * Z * Z :=
  let start_row := if has_header then 2 else 1 in
  let end_row := total_rows in
  let detected_teams_count := end_row - start_row + 1 in
  (start_row, end_row, detected_teams_count).

(* =============================================================== *)
(** ** Auxiliary notions of the statements *)

(** The header flag the preview works with: the override when there is
    one, the Header Detector's answer otherwise. *)
Definition effective_header (file_path : Path) (delimiter : string)
    (has_header : option bool) : bool :=
  match has_header with
  | None => detect_header_row file_path delimiter
  | Some h => h
  end.

(** The column a text refers to among [num_columns] columns, if any:
    the value of [validate_column_index] without its messages. *)
Definition column_reference (column_str : string) (num_columns : Z)
    : option Z :=
  match Py.int (Py.lstrip "$" (Py.strip column_str)) with
  | Ok col_idx => if in_range col_idx num_columns then Some col_idx else None
  | Raise _ => None
  end.

(** The value of a decimal numeral read after the digits of value [acc]. *)
Fixpoint uint_value (d : Decimal.uint) (acc : Z) : Z :=
  match d with
  | Decimal.Nil => acc
  | Decimal.D0 d => uint_value d (10 * acc)
  | Decimal.D1 d => uint_value d (10 * acc + 1)
  | Decimal.D2 d => uint_value d (10 * acc + 2)
  | Decimal.D3 d => uint_value d (10 * acc + 3)
  | Decimal.D4 d => uint_value d (10 * acc + 4)
  | Decimal.D5 d => uint_value d (10 * acc + 5)
  | Decimal.D6 d => uint_value d (10 * acc + 6)
  | Decimal.D7 d => uint_value d (10 * acc + 7)
  | Decimal.D8 d => uint_value d (10 * acc + 8)
  | Decimal.D9 d => uint_value d (10 * acc + 9)
  end.

(** The two messages of the validator. *)
Definition range_line (col_idx num_columns : Z) : string :=
  "[red]Column " ++ Py.str col_idx ++ " is out of range (1-"
  ++ Py.str num_columns ++ ")[/red]".

Definition invalid_line (column_str : string) : string :=
  "[red]Invalid column number: " ++ column_str ++ "[/red]".

(** What [int] does with the digits, behind the white space and the
    sign. *)
Definition int_digits (sign : Z) (s : string) : result Z :=
  match Py.scan_digits s false 0%nat 0 with
  | None => Raise Py.invalid_literal
  | Some (acc, digits, rest) =>
      if (digits =? 0)%nat then Raise Py.invalid_literal
      else if (Py.int_max_str_digits <? digits)%nat then
        Raise (ValueError "Exceeds the limit for integer string conversion")
      else
        match Py.lstrip_by Py.int_space rest with
        | EmptyString => Ok (sign * acc)
        | _ => Raise Py.invalid_literal
        end
  end.

(** The outcome of printing a message of rejection and returning
    None: the message is printed, or the console refuses it. *)
Definition rejected (line : string) (out : Console)
  : result (option Z) * Console :=
  if markup_ok line then (Ok None, (out ++ [Markup line])%list)
  else (Raise MarkupError, out).

(** The outcome of printing the table of the preview and returning the
    flag: the table is printed, or the console refuses one of its
    texts. *)
Definition printed (flag : bool) (table : Table) (out : Console)
  : result bool * Console :=
  if accepts (Rendered table) then (Ok flag, (out ++ [Rendered table])%list)
  else (Raise MarkupError, out).

(** A text that holds an opening bracket. *)
Fixpoint has_bracket (s : string) : bool :=
  match s with
  | EmptyString => false
  | String c t => Ascii.eqb c "[" || has_bracket t
  end.

(** An integer that [str] writes. *)
Definition writable (n : Z) : bool := Z.abs n <? Py.str_limit.

(** The table of the preview when every number in it can be written. *)
Definition preview_table (file_path : Path) (delimiter : string)
    (max_rows : Z) (show_column_numbers : bool) (has_header : option bool)
    : Table :=
  let rows := read_csv_rows file_path delimiter (Some max_rows) in
  let num_columns := max_cells rows in
  let table :=
    add_column
      (mkTable ("CSV Preview: " ++ name file_path)
               ("Showing " ++ Py.str (Py.len rows) ++ " of "
                ++ Py.str (count_csv_rows file_path delimiter) ++ " rows")
               true "bold cyan" [] [])
      "Row" (Some "dim") (Some 4) in
  if effective_header file_path delimiter has_header then
    data_rows num_columns 2 (tl rows)
      (padding_columns show_column_numbers (Py.len (nth 0 rows []))
         num_columns
         (header_columns show_column_numbers (nth 0 rows []) table))
  else
    data_rows num_columns 1 rows
      (generic_columns show_column_numbers num_columns table).

(** A cell made of white space only. *)
Fixpoint all_space (s : string) : bool :=
  match s with
  | EmptyString => true
  | String c t => Py.isspace c && all_space t
  end.

(** The records with every cell stripped. *)
Local Abbreviation trim_rows := (List.map (List.map Py.strip)).

(* =============================================================== *)
(** ** Facts about the console markup *)

Lemma find_tags_empty (fuel : nat) : Rich.find_tags fuel EmptyString = [].
Proof. destruct fuel; reflexivity. Qed.

(** Before a closing tag, a text without opening bracket holds no tag:
    the only match is the closing tag, with the backslashes in front
    of it. *)
Lemma match_tag_before_close (close name body : string) :
  (forall k, Rich.match_tag k close = Some (k, name, EmptyString)) ->
  has_bracket body = false ->
  forall k,
    Rich.match_tag k (body ++ close) = None
    \/ exists k', Rich.match_tag k (body ++ close)
                  = Some (k', name, EmptyString).
Proof.
  intros Hclose. induction body as [|c body IH]; intros Hb k.
  - right. exists k. apply Hclose.
  - cbn [has_bracket] in Hb. apply orb_false_iff in Hb as [Hc Hb].
    cbn [String.append Rich.match_tag]. rewrite Hc.
    destruct (Ascii.eqb c "\"); [apply (IH Hb)|now left].
Qed.

Lemma find_tags_before_close (close name body : string) :
  (forall k, Rich.match_tag k close = Some (k, name, EmptyString)) ->
  has_bracket body = false ->
  forall fuel,
    (String.length (body ++ close) <= fuel)%nat ->
    exists k, Rich.find_tags fuel (body ++ close) = [(k, name)].
Proof.
  intros Hclose. induction body as [|c body IH]; intros Hb fuel Hfuel.
  - destruct fuel as [|fuel].
    + destruct close; [|simpl in Hfuel; lia].
      specialize (Hclose 0%nat). discriminate.
    + exists 0%nat. cbn [String.append Rich.find_tags].
      now rewrite Hclose, find_tags_empty.
  - destruct fuel as [|fuel]; [simpl in Hfuel; lia|].
    cbn [Rich.find_tags].
    destruct (match_tag_before_close close name (String c body) Hclose Hb 0)
      as [->|[k' ->]].
    + cbn [String.append]. cbn [has_bracket] in Hb.
      apply orb_false_iff in Hb as [_ Hb].
      apply (IH Hb). simpl in Hfuel. lia.
    + exists k'. now rewrite find_tags_empty.
Qed.

Lemma length_append (a b : string) :
  String.length (a ++ b) = (String.length a + String.length b)%nat.
Proof. induction a; simpl; congruence. Qed.

Lemma closed_ok_plain (tag_name : string) :
  Rich.closed_ok handler_parameters_ok (Rich.mkTag tag_name None) = true.
Proof. unfold Rich.closed_ok. now destruct (String.prefix _ _). Qed.

Lemma find_tags_wrapped (opening style close name body : string) :
  (forall rest,
     Rich.match_tag 0 (opening ++ rest) = Some (0%nat, style, rest)) ->
  (forall k, Rich.match_tag k close = Some (k, name, EmptyString)) ->
  has_bracket body = false ->
  exists k,
    Rich.find_tags (String.length (opening ++ body ++ close))
                   (opening ++ body ++ close)
    = [(0%nat, style); (k, name)].
Proof.
  intros Hopen Hclose Hb.
  destruct (find_tags_before_close close name body Hclose Hb
              (String.length (opening ++ body ++ close) - 1)) as [k Hk].
  { specialize (Hopen EmptyString). rewrite !length_append.
    destruct opening; [discriminate|]. simpl. lia. }
  exists k.
  destruct (String.length (opening ++ body ++ close)) as [|fuel] eqn:E.
  - specialize (Hopen EmptyString).
    destruct opening; [discriminate|discriminate].
  - cbn [Rich.find_tags]. rewrite Hopen. f_equal.
    now replace (S fuel - 1)%nat with fuel in Hk by lia.
Qed.

(** A text without opening bracket between a tag of style red or yellow
    and its closing tag is good markup, whatever the spelling of
    styles. *)
Lemma markup_ok_red (body : string) :
  has_bracket body = false ->
  markup_ok ("[red]" ++ body ++ "[/red]") = true.
Proof.
  intros Hb. unfold markup_ok, Rich.markup_ok, Rich.parse.
  destruct (find_tags_wrapped "[red]" "red" "[/red]" "/red" body
              (fun rest => eq_refl) (fun k => eq_refl) Hb) as [k ->].
  cbn [flat_map app]. change (Nat.odd 0) with false.
  change (Rich.partition_eq "red") with ("red", @None string).
  change (Rich.partition_eq "/red") with ("/red", @None string).
  cbv iota. cbn [app Rich.render Rich.tag_name Rich.parameters].
  destruct (Nat.odd k); [reflexivity|].
  cbn [app Rich.render Rich.tag_name Rich.parameters].
  change (Py.strip "red") with "red". cbv iota.
  cbn [Rich.pop_style Rich.tag_name]. rewrite String.eqb_refl.
  now rewrite closed_ok_plain.
Qed.

Lemma markup_ok_yellow (body : string) :
  has_bracket body = false ->
  markup_ok ("[yellow]" ++ body ++ "[/yellow]") = true.
Proof.
  intros Hb. unfold markup_ok, Rich.markup_ok, Rich.parse.
  destruct (find_tags_wrapped "[yellow]" "yellow" "[/yellow]" "/yellow" body
              (fun rest => eq_refl) (fun k => eq_refl) Hb) as [k ->].
  cbn [flat_map app]. change (Nat.odd 0) with false.
  change (Rich.partition_eq "yellow") with ("yellow", @None string).
  change (Rich.partition_eq "/yellow") with ("/yellow", @None string).
  cbv iota. cbn [app Rich.render Rich.tag_name Rich.parameters].
  destruct (Nat.odd k); [reflexivity|].
  cbn [app Rich.render Rich.tag_name Rich.parameters].
  change (Py.strip "yellow") with "yellow". cbv iota.
  cbn [Rich.pop_style Rich.tag_name]. rewrite String.eqb_refl.
  now rewrite closed_ok_plain.
Qed.

Lemma has_bracket_app (a b : string) :
  has_bracket (a ++ b) = has_bracket a || has_bracket b.
Proof.
  induction a as [|c a IH]; [reflexivity|].
  cbn [String.append has_bracket]. now rewrite IH, orb_assoc.
Qed.

Lemma has_bracket_numeral (d : Decimal.uint) :
  has_bracket (NilEmpty.string_of_uint d) = false.
Proof. induction d; simpl; auto. Qed.

Lemma has_bracket_str (n : Z) : has_bracket (Py.str n) = false.
Proof.
  unfold Py.str. destruct (Z.to_int n); cbn [NilEmpty.string_of_int];
    [|cbn [has_bracket]; change (Ascii.eqb "-" "[") with false];
    apply has_bracket_numeral.
Qed.

(** The fixed warning of the preview is taken by the console. *)
Lemma console_print_warning (out : Console) :
  console_print (Markup "[yellow]Warning: CSV file is empty[/yellow]") out
  = (Ok tt,
     (out ++ [Markup "[yellow]Warning: CSV file is empty[/yellow]"])%list).
Proof.
  unfold console_print, accepts.
  change "[yellow]Warning: CSV file is empty[/yellow]"
    with ("[yellow]" ++ "Warning: CSV file is empty" ++ "[/yellow]").
  now rewrite (markup_ok_yellow "Warning: CSV file is empty" eq_refl).
Qed.

(* =============================================================== *)
(** ** Facts about the built-ins *)

Lemma lstrip_by_first (p : ascii -> bool) (s : string) :
  match first_char (Py.lstrip_by p s) with
  | Some c => p c = false
  | None => True
  end.
Proof.
  induction s as [|c t IH]; simpl; [exact I|].
  destruct (p c) eqn:E; [exact IH|]. simpl. exact E.
Qed.

Lemma rstrip_by_last (p : ascii -> bool) (s : string) :
  match last_char (Py.rstrip_by p s) with
  | Some c => p c = false
  | None => True
  end.
Proof.
  induction s as [|c t IH]; simpl; [exact I|].
  destruct (Py.rstrip_by p t) as [|c' t'] eqn:E.
  - destruct (p c) eqn:Ec; simpl; [exact I|exact Ec].
  - exact IH.
Qed.

Lemma rstrip_by_first (p : ascii -> bool) (c : ascii) (t : string) :
  p c = false -> first_char (Py.rstrip_by p (String c t)) = Some c.
Proof.
  intros Hc. simpl.
  destruct (Py.rstrip_by p t); [rewrite Hc|]; reflexivity.
Qed.

Lemma strip_trimmed (s : string) : trimmed (Py.strip s) = true.
Proof.
  unfold trimmed, Py.strip.
  pose proof (lstrip_by_first Py.isspace s) as Hl.
  pose proof (rstrip_by_last Py.isspace (Py.lstrip_by Py.isspace s)) as Hr.
  apply andb_true_iff; split; apply negb_true_iff.
  - destruct (Py.lstrip_by Py.isspace s) as [|c t]; [reflexivity|].
    simpl in Hl. rewrite (rstrip_by_first _ _ _ Hl). exact Hl.
  - destruct (last_char _); [exact Hr|reflexivity].
Qed.

Lemma lstrip_by_id (p : ascii -> bool) (s : string) :
  match first_char s with
  | Some c => p c = false
  | None => True
  end ->
  Py.lstrip_by p s = s.
Proof.
  destruct s as [|c t]; simpl; [reflexivity|]. now intros ->.
Qed.

Lemma rstrip_by_id (p : ascii -> bool) (s : string) :
  match last_char s with
  | Some c => p c = false
  | None => True
  end ->
  Py.rstrip_by p s = s.
Proof.
  induction s as [|c t IH]; [reflexivity|].
  destruct t as [|c' t'].
  - simpl. now intros ->.
  - intros H. change (last_char (String c (String c' t')))
      with (last_char (String c' t')) in H.
    cbn [Py.rstrip_by] in IH |- *. now rewrite (IH H).
Qed.

(** A trimmed cell is one that [strip] leaves as it is. *)
Lemma trimmed_strip (s : string) : trimmed s = true -> Py.strip s = s.
Proof.
  unfold trimmed, Py.strip. intros H.
  apply andb_true_iff in H as [Hf Hl]. apply negb_true_iff in Hf, Hl.
  rewrite (lstrip_by_id Py.isspace s).
  - apply rstrip_by_id. destruct (last_char s); [exact Hl|exact I].
  - destruct (first_char s); [exact Hf|exact I].
Qed.

Lemma len_map {A B : Type} (f : A -> B) (l : list A) :
  Py.len (List.map f l) = Py.len l.
Proof. unfold Py.len. now rewrite length_map. Qed.

Lemma len_nonneg {A : Type} (l : list A) : 0 <= Py.len l.
Proof. unfold Py.len. lia. Qed.

(* =============================================================== *)
(** ** The two loops *)

Lemma read_loop_unlimited (max_rows : option Z) (reader rows : list Row) :
  (forall idx, limit_reached max_rows idx = false) ->
  forall idx,
    read_loop max_rows idx reader rows = (rows ++ trim_rows reader)%list.
Proof.
  intros Hnever. revert rows.
  induction reader as [|row reader IH]; intros rows idx; simpl.
  - now rewrite app_nil_r.
  - rewrite Hnever, IH, <- app_assoc. reflexivity.
Qed.

Lemma read_loop_limited (m : Z) (reader : list Row) :
  m <> 0 ->
  forall rows idx,
    read_loop (Some m) idx reader rows
    = (rows ++ trim_rows (firstn (Z.to_nat (m - idx)) reader))%list.
Proof.
  intros Hm.
  induction reader as [|row reader IH]; intros rows idx; simpl.
  - now rewrite firstn_nil, app_nil_r.
  - destruct (m =? 0) eqn:E0; [apply Z.eqb_eq in E0; contradiction|].
    simpl. destruct (idx >=? m) eqn:E.
    + assert (Z.to_nat (m - idx) = 0%nat) as -> by lia.
      simpl. now rewrite app_nil_r.
    + rewrite IH, <- app_assoc.
      assert (Z.to_nat (m - idx) = S (Z.to_nat (m - (idx + 1)))) as -> by lia.
      reflexivity.
Qed.

Lemma read_csv_rows_all (file_path : Path) (delimiter : string) :
  read_csv_rows file_path delimiter None
  = trim_rows (csv_reader file_path delimiter).
Proof.
  unfold read_csv_rows. now rewrite read_loop_unlimited.
Qed.

Lemma read_csv_rows_zero (file_path : Path) (delimiter : string) :
  read_csv_rows file_path delimiter (Some 0)
  = trim_rows (csv_reader file_path delimiter).
Proof.
  unfold read_csv_rows. now rewrite read_loop_unlimited.
Qed.

Lemma read_csv_rows_limited (file_path : Path) (delimiter : string) (m : Z) :
  m <> 0 ->
  read_csv_rows file_path delimiter (Some m)
  = trim_rows (firstn (Z.to_nat m) (csv_reader file_path delimiter)).
Proof.
  intros Hm. unfold read_csv_rows.
  rewrite (read_loop_limited m _ Hm). simpl. now rewrite Z.sub_0_r.
Qed.

Lemma count_loop_len (reader : list Row) (count : Z) :
  count_loop reader count = count + Py.len reader.
Proof.
  revert count. induction reader as [|row reader IH]; intros count; simpl.
  - unfold Py.len. simpl. lia.
  - rewrite IH. unfold Py.len. simpl List.length. lia.
Qed.

Lemma count_csv_rows_len (file_path : Path) (delimiter : string) :
  count_csv_rows file_path delimiter = Py.len (csv_reader file_path delimiter).
Proof. unfold count_csv_rows. now rewrite count_loop_len. Qed.

Lemma firstn_sample {A : Type} (n : nat) (l : list A) :
  firstn n l = firstn (Nat.min n (List.length l)) l.
Proof.
  destruct (Nat.le_gt_cases n (List.length l)) as [H|H].
  - now rewrite Nat.min_l.
  - rewrite Nat.min_r by lia. now rewrite !firstn_all2 by lia.
Qed.

(** Whatever the limit, the rows read are a prefix of the trimmed records. *)
Lemma read_csv_rows_prefix (file_path : Path) (delimiter : string)
    (max_rows : option Z) :
  exists n : nat,
    read_csv_rows file_path delimiter max_rows
    = trim_rows (firstn n (csv_reader file_path delimiter)).
Proof.
  destruct max_rows as [m|].
  - destruct (Z.eq_dec m 0) as [->|Hm].
    + exists (List.length (csv_reader file_path delimiter)).
      now rewrite read_csv_rows_zero, firstn_all.
    + exists (Z.to_nat m). now apply read_csv_rows_limited.
  - exists (List.length (csv_reader file_path delimiter)).
    now rewrite read_csv_rows_all, firstn_all.
Qed.

(** A positive limit is kept: the part of the Row Reader's bound that
    the loop does implement. *)
Lemma read_csv_rows_at_most (file_path : Path) (delimiter : string) (k : Z) :
  1 <= k ->
  Py.len (read_csv_rows file_path delimiter (Some k)) <= k.
Proof.
  intros Hk. rewrite read_csv_rows_limited by lia.
  unfold Py.len. rewrite length_map, length_firstn. lia.
Qed.

Lemma max_fold_left (rows : list Row) (x : Z) :
  0 <= x ->
  fold_left Z.max (List.map Py.len rows) x = Z.max x (max_cells rows).
Proof.
  revert x. induction rows as [|row rows IH]; intros x Hx; simpl.
  - lia.
  - rewrite IH; lia.
Qed.

Lemma max_cells_trim (rows : list Row) :
  max_cells (trim_rows rows) = max_cells rows.
Proof.
  induction rows as [|row rows IH]; simpl; [reflexivity|].
  now rewrite IH, len_map.
Qed.

Lemma max_cells_nonneg (rows : list Row) : 0 <= max_cells rows.
Proof. induction rows; simpl; lia. Qed.

(* ================================================================= *)
(** ** The Row Reader and the Row Counter *)

(** C6: the Row Counter returns the number N of records of the file, 0 for
    an empty file, and the Row Reader called with [max_rows = N] returns
    N rows, the whole (trimmed) content, the same as the unbounded read. *)
Theorem count_csv_rows_total (file_path : Path) (delimiter : string) :
  let records := csv_reader file_path delimiter in
  let N := List.length records in
  count_csv_rows file_path delimiter = Z.of_nat N
  /\ (records = [] -> count_csv_rows file_path delimiter = 0)
  /\ List.length (read_csv_rows file_path delimiter (Some (Z.of_nat N))) = N
  /\ read_csv_rows file_path delimiter (Some (Z.of_nat N)) = trim_rows records
  /\ read_csv_rows file_path delimiter (Some (Z.of_nat N))
     = read_csv_rows file_path delimiter None.
Proof.
  intros records N.
  assert (Hread : read_csv_rows file_path delimiter (Some (Z.of_nat N))
                  = trim_rows records).
  { destruct (Z.eq_dec (Z.of_nat N) 0) as [E|E].
    - rewrite E. apply read_csv_rows_zero.
    - rewrite read_csv_rows_limited by exact E.
      rewrite Nat2Z.id. subst N records. now rewrite firstn_all. }
  repeat split.
  - apply count_csv_rows_len.
  - intros E. rewrite count_csv_rows_len. subst records. now rewrite E.
  - rewrite Hread. now rewrite length_map.
  - exact Hread.
  - rewrite Hread. symmetry. apply read_csv_rows_all.
Qed.

(** C10: for a limit [k >= 1] the bounded read is the first [min k N] rows
    of the unbounded read of the same file. *)
Theorem read_csv_rows_bounded_prefix (file_path : Path) (delimiter : string)
    (k : Z) :
  1 <= k ->
  let N := List.length (csv_reader file_path delimiter) in
  read_csv_rows file_path delimiter (Some k)
  = firstn (Nat.min (Z.to_nat k) N) (read_csv_rows file_path delimiter None)
  /\ List.length (read_csv_rows file_path delimiter (Some k))
     = Nat.min (Z.to_nat k) N.
Proof.
  intros Hk N.
  rewrite read_csv_rows_limited by lia.
  rewrite read_csv_rows_all, firstn_map. subst N.
  rewrite <- firstn_sample. split; [reflexivity|].
  now rewrite length_map, length_firstn.
Qed.

(** C7: every cell of every row the Row Reader produces is the raw cell
    without its leading and trailing white space: it neither starts nor
    ends with white space, and stripping it again changes nothing.  The
    record with the raw fields "  Team A  " and " Uni A " is read as
    ["Team A"; "Uni A"]. *)
Theorem read_csv_rows_trims (file_path : Path) (delimiter : string)
    (max_rows : option Z) :
  Forall (Forall (fun cell => trimmed cell = true /\ Py.strip cell = cell))
         (read_csv_rows file_path delimiter max_rows)
  /\ (exists n : nat,
        read_csv_rows file_path delimiter max_rows
        = List.map (List.map Py.strip)
                   (firstn n (csv_reader file_path delimiter)))
  /\ (csv_reader file_path delimiter = [ ["  Team A  "; " Uni A "] ] ->
      read_csv_rows file_path delimiter None = [ ["Team A"; "Uni A"] ]).
Proof.
  destruct (read_csv_rows_prefix file_path delimiter max_rows) as [n Hn].
  repeat split.
  - rewrite Hn. apply Forall_map, Forall_forall. intros row _.
    apply Forall_map, Forall_forall. intros cell _.
    split; [apply strip_trimmed|apply trimmed_strip, strip_trimmed].
  - exists n. exact Hn.
  - intros E. rewrite read_csv_rows_all, E. reflexivity.
Qed.

(* ================================================================= *)
(** ** The Column Counter *)

(** C5: the Column Counter returns the largest cell count among the first
    [min 5 N] rows, 0 when that sample is empty; on the ragged file
    a,b / c,d,e,f / g,h,i it returns 4. *)
Theorem get_column_count_max (file_path : Path) (delimiter : string) :
  let records := csv_reader file_path delimiter in
  let sample := firstn (Nat.min 5 (List.length records)) records in
  get_column_count file_path delimiter = Ok (max_cells sample)
  /\ (sample = [] -> get_column_count file_path delimiter = Ok 0)
  /\ (records = ragged_file -> get_column_count file_path delimiter = Ok 4).
Proof.
  intros records sample.
  assert (H : get_column_count file_path delimiter = Ok (max_cells sample)).
  { unfold get_column_count. rewrite read_csv_rows_limited by lia.
    change (Z.to_nat 5) with 5%nat.
    subst sample records. rewrite <- firstn_sample.
    destruct (firstn 5 (csv_reader file_path delimiter)) as [|row rows];
      [reflexivity|].
    cbn [List.map Py.max]. rewrite max_fold_left by apply len_nonneg.
    rewrite len_map.
    rewrite max_cells_trim. reflexivity. }
  repeat split.
  - exact H.
  - intros E. rewrite H, E. reflexivity.
  - intros E. rewrite H. subst sample. rewrite E. reflexivity.
Qed.

(* ================================================================= *)
(** ** The Header Detector and the Auto Range Detector *)

Lemma prefix_app (kw a b : string) :
  String.prefix kw a = true -> String.prefix kw (a ++ b) = true.
Proof.
  revert a. induction kw as [|k kw IH]; intros a H;
    [destruct (a ++ b); reflexivity|].
  destruct a as [|c a]; simpl in *; [discriminate|].
  destruct (ascii_dec k c); [now apply IH|discriminate].
Qed.

Lemma prefix_before_blank (kw a b : string) :
  Py.mem_char " " kw = false ->
  String.prefix kw (a ++ String " " b) = true ->
  String.prefix kw a = true.
Proof.
  revert a. induction kw as [|k kw IH]; intros a Hkw H;
    [destruct a; reflexivity|].
  cbn [Py.mem_char] in Hkw. apply orb_false_iff in Hkw as [Hk Hkw].
  destruct a as [|c a]; cbn [String.append String.prefix] in H |- *.
  - destruct (ascii_dec k " ") as [E|]; [|discriminate].
    rewrite E, Ascii.eqb_refl in Hk. discriminate.
  - destruct (ascii_dec k c); [now apply IH|discriminate].
Qed.

Lemma contains_prefix (kw s : string) :
  String.prefix kw s = true -> Py.contains kw s = true.
Proof. intros H. destruct s; cbn [Py.contains]; rewrite H; reflexivity. Qed.

Lemma contains_app_l (kw a b : string) :
  Py.contains kw a = true -> Py.contains kw (a ++ b) = true.
Proof.
  induction a as [|c a IH]; intros H.
  - cbn [Py.contains] in H. rewrite orb_false_r in H.
    apply contains_prefix. exact (prefix_app kw "" b H).
  - cbn [Py.contains String.append] in H |- *.
    apply orb_true_iff in H as [H|H]; apply orb_true_iff.
    + left. exact (prefix_app kw (String c a) b H).
    + right. exact (IH H).
Qed.

Lemma contains_app_r (kw a b : string) :
  Py.contains kw b = true -> Py.contains kw (a ++ b) = true.
Proof.
  intros H. induction a as [|c a IH]; [exact H|].
  cbn [Py.contains String.append]. rewrite IH. apply orb_true_r.
Qed.

Lemma contains_around_blank (kw a b : string) :
  Py.mem_char " " kw = false ->
  Py.contains kw (a ++ String " " b) = true ->
  Py.contains kw a = true \/ Py.contains kw b = true.
Proof.
  intros Hkw. induction a as [|c a IH]; intros H;
    cbn [Py.contains String.append] in H;
    apply orb_true_iff in H as [H|H].
  - left. apply contains_prefix.
    exact (prefix_before_blank kw "" b Hkw H).
  - now right.
  - left. apply contains_prefix.
    exact (prefix_before_blank kw (String c a) b Hkw H).
  - destruct (IH H) as [Ha|Hb]; [left|now right].
    cbn [Py.contains]. rewrite Ha. apply orb_true_r.
Qed.

(** A word without blank occurs in the cells joined by single blanks
    exactly when it occurs inside one of the cells. *)
Lemma contains_join (kw : string) (cells : list string) :
  Py.mem_char " " kw = false -> kw <> EmptyString ->
  Py.contains kw (Py.join " " cells) = true
  <-> exists cell, In cell cells /\ Py.contains kw cell = true.
Proof.
  intros Hkw Hne. induction cells as [|x rest IH].
  - simpl. split.
    + intros H. destruct kw; [congruence|simpl in H; discriminate].
    + intros [cell [[] _]].
  - destruct rest as [|y rest].
    + simpl. split.
      * intros H. exists x. auto.
      * intros [cell [[<-|[]] H]]. exact H.
    + change (Py.join " " (x :: y :: rest))
        with (x ++ String " " (Py.join " " (y :: rest))).
      split.
      * intros H. destruct (contains_around_blank _ _ _ Hkw H) as [Hx|Hr].
        -- exists x. split; [now left|exact Hx].
        -- apply IH in Hr as [cell [Hin Hc]].
           exists cell. split; [now right|exact Hc].
      * intros [cell [[<-|Hin] Hc]].
        -- now apply contains_app_l.
        -- apply contains_app_r, (contains_app_r kw " ").
           apply IH. exists cell. auto.
Qed.

Lemma header_keywords_plain :
  Forall (fun kw => Py.mem_char " " kw = false /\ kw <> EmptyString)
         header_keywords.
Proof. repeat constructor; discriminate. Qed.

(** What [detect_header_row] computes, in terms of the records. *)
Lemma detect_header_row_unfold (file_path : Path) (delimiter : string) :
  detect_header_row file_path delimiter
  = if (List.length (csv_reader file_path delimiter) <? 2)%nat then false
    else
      existsb
        (fun keyword =>
           Py.contains keyword
             (Py.join " "
                (List.map Py.lower
                   (nth 0 (read_csv_rows file_path delimiter None) []))))
        header_keywords.
Proof.
  unfold detect_header_row.
  rewrite read_csv_rows_limited by lia. rewrite read_csv_rows_all.
  destruct (csv_reader file_path delimiter) as [|r1 [|r2 rest]];
    try reflexivity.
  change (Z.to_nat 5) with 5%nat. cbn [firstn List.map nth].
  replace (Py.len _ <? 2) with false; [reflexivity|].
  symmetry. apply Z.ltb_ge. unfold Py.len. cbn [List.length]. lia.
Qed.

(** C3 (amended): with fewer than 2 rows the Header Detector returns false;
    with at least 2 rows it returns true exactly when some keyword occurs
    in the lower-cased cells of the first row joined by single blanks,
    that is, inside one of those cells: a keyword that only arises across
    the boundary of two cells is not found.  The first row
    id,name,affiliation,country with a second row gives true. *)
Theorem detect_header_row_keywords (file_path : Path) (delimiter : string) :
  let records := csv_reader file_path delimiter in
  let first_row := nth 0 (read_csv_rows file_path delimiter None) [] in
  ((List.length records < 2)%nat ->
     detect_header_row file_path delimiter = false)
  /\ ((2 <= List.length records)%nat ->
      (detect_header_row file_path delimiter = true
       <-> exists keyword,
             In keyword header_keywords
             /\ Py.contains keyword
                  (Py.join " " (List.map Py.lower first_row)) = true))
  /\ ((2 <= List.length records)%nat ->
      (detect_header_row file_path delimiter = true
       <-> exists keyword cell,
             In keyword header_keywords /\ In cell first_row
             /\ Py.contains keyword (Py.lower cell) = true))
  /\ (forall second rest,
        records = ["id"; "name"; "affiliation"; "country"] :: second :: rest ->
        detect_header_row file_path delimiter = true).
Proof.
  intros records first_row.
  assert (Hjoin : (2 <= List.length records)%nat ->
            (detect_header_row file_path delimiter = true
             <-> exists keyword,
                   In keyword header_keywords
                   /\ Py.contains keyword
                        (Py.join " " (List.map Py.lower first_row)) = true)).
  { intros Hlen. rewrite detect_header_row_unfold. fold records.
    apply Nat.ltb_ge in Hlen. rewrite Hlen. apply existsb_exists. }
  repeat apply conj.
  - intros Hlen. rewrite detect_header_row_unfold. fold records.
    apply Nat.ltb_lt in Hlen. now rewrite Hlen.
  - exact Hjoin.
  - intros Hlen. rewrite (Hjoin Hlen). split.
    + intros [kw [Hin Hc]].
      pose proof header_keywords_plain as Hplain.
      rewrite Forall_forall in Hplain. destruct (Hplain kw Hin) as [Hkw Hne].
      apply (contains_join kw _ Hkw Hne) in Hc as [lowered [Hl Hc]].
      apply in_map_iff in Hl as [cell [<- Hcell]].
      exists kw, cell. auto.
    + intros [kw [cell [Hin [Hcell Hc]]]].
      pose proof header_keywords_plain as Hplain.
      rewrite Forall_forall in Hplain. destruct (Hplain kw Hin) as [Hkw Hne].
      exists kw. split; [exact Hin|].
      apply (contains_join kw _ Hkw Hne).
      exists (Py.lower cell). split; [now apply in_map|exact Hc].
  - intros second rest E.
    assert (Hlen : (2 <= List.length records)%nat) by (rewrite E; simpl; lia).
    apply (Hjoin Hlen). exists "id". split; [now left|].
    subst first_row. rewrite read_csv_rows_all. fold records. rewrite E.
    reflexivity.
Qed.

(** C4: the Auto Range Detector returns the pair of 2 or 1, as the Header
    Detector answers true or false, and of the Row Counter's total; on an
    empty file the pair is (1, 0). *)
Theorem auto_detect_data_range_law (file_path : Path) (delimiter : string) :
  auto_detect_data_range file_path delimiter
  = ((if detect_header_row file_path delimiter then 2 else 1),
     count_csv_rows file_path delimiter)
  /\ (csv_reader file_path delimiter = [] ->
      auto_detect_data_range file_path delimiter = (1, 0)).
Proof.
  split; [reflexivity|].
  intros E.
  unfold auto_detect_data_range, detect_header_row, count_csv_rows,
    read_csv_rows.
  rewrite E. reflexivity.
Qed.

(* ================================================================= *)
(** ** The Preview Renderer *)

(** C8: on a file without records the Preview Renderer, whatever the
    delimiter, the limit, the column-number flag and the header override,
    raises nothing, prints the notice that the file is empty and returns
    false. *)
Theorem preview_csv_empty (file_path : Path) (delimiter : string)
    (max_rows : Z) (show_column_numbers : bool) (has_header : option bool)
    (out : Console) :
  csv_reader file_path delimiter = [] ->
  preview_csv file_path delimiter max_rows show_column_numbers has_header out
  = (Ok false,
     (out ++ [Markup "[yellow]Warning: CSV file is empty[/yellow]"])%list).
Proof.
  intros E. unfold preview_csv, read_csv_rows. rewrite E.
  cbn [read_loop is_empty]. unfold bind, ret.
  now rewrite console_print_warning.
Qed.

(* ================================================================= *)
(** ** The Column Index Validator *)

Lemma in_range_iff (v n : Z) : in_range v n = true <-> 1 <= v <= n.
Proof. unfold in_range. rewrite andb_true_iff, !Z.leb_le. reflexivity. Qed.

(** With at most one marker in front, removing one marker and removing
    them all is the same. *)
Lemma lstrip_one_marker (s : string) :
  String.prefix "$$" s = false ->
  Py.lstrip "$" s = strip_one_marker s.
Proof.
  intros H. unfold Py.lstrip. destruct s as [|c t]; [reflexivity|].
  cbn [Py.lstrip_by Py.mem_char strip_one_marker]. rewrite orb_false_r.
  destruct (Ascii.eqb_spec c "$") as [->|Hc]; [|reflexivity].
  destruct t as [|c' t']; [reflexivity|].
  cbn [Py.lstrip_by Py.mem_char]. rewrite orb_false_r.
  destruct (Ascii.eqb_spec c' "$") as [->|Hc'];
    [destruct t'; vm_compute in H; discriminate|reflexivity].
Qed.

(** On every text that does not start (white space apart) with two
    markers, the column the code reads is the one the specification
    words. *)
Lemma column_reference_single_marker (column_str : string)
    (num_columns : Z) :
  String.prefix "$$" (Py.strip column_str) = false ->
  column_reference column_str num_columns
  = validate_as_specified column_str num_columns.
Proof.
  intros H. unfold column_reference, validate_as_specified.
  now rewrite (lstrip_one_marker _ H).
Qed.

(* ----------------------------------------------------------------- *)
(** *** What [int] returns can be written by [str] *)

Lemma digit_value_range (c : ascii) (d : Z) :
  Py.digit_value c = Some d -> 0 <= d <= 9.
Proof.
  unfold Py.digit_value.
  destruct ((48 <=? Py.code c) && (Py.code c <=? 57)) eqn:E; [|discriminate].
  apply andb_true_iff in E as [E1 E2]. apply Z.leb_le in E1, E2.
  intros [= <-]. lia.
Qed.

Lemma scan_digits_bound (s : string) :
  forall (prev_us : bool) (digits : nat) (acc : Z) acc' digits' rest,
    Py.scan_digits s prev_us digits acc = Some (acc', digits', rest) ->
    0 <= acc < 10 ^ Z.of_nat digits ->
    0 <= acc' < 10 ^ Z.of_nat digits'.
Proof.
  induction s as [|c t IH]; intros prev_us digits acc acc' digits' rest;
    cbn [Py.scan_digits].
  - destruct prev_us; [discriminate|]. now intros [= <- <- <-].
  - destruct (Ascii.eqb c "_").
    + destruct prev_us; [discriminate|]. apply IH.
    + destruct (Py.digit_value c) as [d|] eqn:Ed.
      * intros H Hacc. apply (IH _ _ _ _ _ _ H).
        apply digit_value_range in Ed.
        rewrite Nat2Z.inj_succ, Z.pow_succ_r by lia. lia.
      * destruct prev_us; [discriminate|]. now intros [= <- <- <-].
Qed.

(** [int] behind the white space and the sign: the digits are scanned,
    counted and followed by white space only. *)
Lemma int_unfold (s : string) :
  Py.int s
  = let s1 := Py.lstrip_by Py.int_space s in
    let signed :=
      match s1 with
      | String c t =>
          if Ascii.eqb c "+" then (1, t)
          else if Ascii.eqb c "-" then (-1, t) else (1, s1)
      | EmptyString => (1, s1)
      end in
    if match snd signed with
       | String c _ => Ascii.eqb c "_"
       | EmptyString => false
       end
    then Raise Py.invalid_literal
    else int_digits (fst signed) (snd signed).
Proof.
  unfold Py.int, int_digits.
  destruct (Py.lstrip_by Py.int_space s) as [|c t]; [reflexivity|].
  destruct c as [[] [] [] [] [] [] [] []]; try reflexivity;
    (destruct t as [|c' t'];
     [reflexivity|destruct c' as [[] [] [] [] [] [] [] []]; reflexivity]).
Qed.

Lemma int_digits_writable (sign : Z) (s : string) (v : Z) :
  sign = 1 \/ sign = -1 ->
  int_digits sign s = Ok v -> writable v = true.
Proof.
  intros Hsign. unfold int_digits.
  destruct (Py.scan_digits s false 0%nat 0) as [[[acc digits] rest]|] eqn:E;
    [|discriminate].
  destruct (digits =? 0)%nat; [discriminate|].
  destruct (Nat.ltb_spec Py.int_max_str_digits digits); [discriminate|].
  destruct (Py.lstrip_by Py.int_space rest); [|discriminate].
  intros [= <-].
  apply scan_digits_bound in E; [|simpl; lia].
  unfold writable, Py.str_limit. apply Z.ltb_lt.
  assert (10 ^ Z.of_nat digits <= 10 ^ Z.of_nat Py.int_max_str_digits)
    by (apply Z.pow_le_mono_r; lia).
  destruct Hsign as [-> | ->]; lia.
Qed.

Lemma int_digits_raises (sign : Z) (s : string) (e : exn) :
  int_digits sign s = Raise e -> exists msg, e = ValueError msg.
Proof.
  unfold int_digits.
  destruct (Py.scan_digits s false 0%nat 0) as [[[acc digits] rest]|];
    [|intros [= <-]; eexists; reflexivity].
  destruct (digits =? 0)%nat; [intros [= <-]; eexists; reflexivity|].
  destruct (Py.int_max_str_digits <? digits)%nat;
    [intros [= <-]; eexists; reflexivity|].
  destruct (Py.lstrip_by Py.int_space rest);
    [discriminate|intros [= <-]; eexists; reflexivity].
Qed.

Lemma int_sign (s1 : string) :
  let signed :=
    match s1 with
    | String c t =>
        if Ascii.eqb c "+" then (1, t)
        else if Ascii.eqb c "-" then (-1, t) else (1, s1)
    | EmptyString => (1, s1)
    end in
  fst signed = 1 \/ fst signed = -1.
Proof.
  destruct s1 as [|c t]; cbn; [auto|].
  destruct (Ascii.eqb c "+"); [auto|]. destruct (Ascii.eqb c "-"); auto.
Qed.

Lemma int_writable (s : string) (v : Z) :
  Py.int s = Ok v -> writable v = true.
Proof.
  rewrite int_unfold. cbv zeta.
  pose proof (int_sign (Py.lstrip_by Py.int_space s)) as Hsign.
  cbv zeta in Hsign.
  match goal with |- (if ?b then _ else _) = _ -> _ => destruct b end;
    [discriminate|].
  now apply int_digits_writable.
Qed.

Lemma int_raises (s : string) (e : exn) :
  Py.int s = Raise e -> exists msg, e = ValueError msg.
Proof.
  rewrite int_unfold. cbv zeta.
  match goal with |- (if ?b then _ else _) = _ -> _ => destruct b end.
  - intros [= <-]. eexists; reflexivity.
  - apply int_digits_raises.
Qed.

(* ----------------------------------------------------------------- *)
(** *** The outcomes of the validator *)

(** What the validator does, case by case: it accepts silently; it
    rejects an integer out of range with the range line, and anything
    else (a text that is no integer, or a range that [str] cannot
    write) with the line that quotes the text; and the print of that
    line raises when the console refuses it. *)
Lemma validate_column_index_outcome (column_str : string) (num_columns : Z)
    (out : Console) :
  let text := Py.lstrip "$" (Py.strip column_str) in
  validate_column_index column_str num_columns out
  = match Py.int text with
    | Ok col_idx =>
        if in_range col_idx num_columns then (Ok (Some col_idx), out)
        else if writable num_columns
             then rejected (range_line col_idx num_columns) out
             else rejected (invalid_line text) out
    | Raise _ => rejected (invalid_line text) out
    end.
Proof.
  intros text.
  unfold validate_column_index, try_except_ValueError, bind, lift, ret.
  fold text.
  destruct (Py.int text) as [v|e] eqn:E.
  - destruct (in_range v num_columns); [reflexivity|].
    unfold Py.str_int. pose proof (int_writable _ _ E) as Hv.
    unfold writable in Hv |- *. rewrite Hv.
    destruct (Z.abs num_columns <? Py.str_limit);
      unfold console_print, accepts, rejected, range_line, invalid_line;
      match goal with |- context [markup_ok ?l] => destruct (markup_ok l) end;
      reflexivity.
  - destruct (int_raises _ _ E) as [msg ->].
    unfold console_print, accepts, rejected, invalid_line.
    match goal with |- context [markup_ok ?l] => destruct (markup_ok l) end;
      reflexivity.
Qed.

Lemma append_assoc (a b c : string) : (a ++ b) ++ c = a ++ b ++ c.
Proof. induction a as [|x a IH]; cbn [String.append]; congruence. Qed.

Lemma range_line_ok (col_idx num_columns : Z) :
  markup_ok (range_line col_idx num_columns) = true.
Proof.
  replace (range_line col_idx num_columns)
    with ("[red]"
          ++ ("Column " ++ Py.str col_idx ++ " is out of range (1-"
              ++ Py.str num_columns ++ ")")
          ++ "[/red]").
  - apply markup_ok_red.
    rewrite !has_bracket_app, !has_bracket_str. reflexivity.
  - unfold range_line. rewrite !append_assoc. reflexivity.
Qed.

Lemma invalid_line_ok (text : string) :
  has_bracket text = false -> markup_ok (invalid_line text) = true.
Proof.
  intros H. unfold invalid_line.
  change ("[red]Invalid column number: " ++ text ++ "[/red]")
    with ("[red]" ++ "Invalid column number: " ++ text ++ "[/red]").
  replace ("Invalid column number: " ++ text ++ "[/red]")
    with (("Invalid column number: " ++ text) ++ "[/red]")
    by (now rewrite append_assoc).
  apply markup_ok_red. rewrite has_bracket_app, H. reflexivity.
Qed.

Lemma has_bracket_lstrip (p : ascii -> bool) (s : string) :
  has_bracket s = false -> has_bracket (Py.lstrip_by p s) = false.
Proof.
  induction s as [|c t IH]; [auto|]. intros H. cbn [Py.lstrip_by].
  destruct (p c); [|exact H].
  cbn [has_bracket] in H. apply orb_false_iff in H as [_ H]. exact (IH H).
Qed.

Lemma has_bracket_rstrip (p : ascii -> bool) (s : string) :
  has_bracket s = false -> has_bracket (Py.rstrip_by p s) = false.
Proof.
  induction s as [|c t IH]; [auto|]. intros H.
  cbn [has_bracket] in H. apply orb_false_iff in H as [Hc H].
  specialize (IH H). cbn [Py.rstrip_by].
  destruct (Py.rstrip_by p t); [destruct (p c)|];
    cbn [has_bracket] in *; rewrite ?Hc, ?IH; reflexivity.
Qed.

Lemma has_bracket_text (column_str : string) :
  has_bracket column_str = false ->
  has_bracket (Py.lstrip "$" (Py.strip column_str)) = false.
Proof.
  intros H. unfold Py.lstrip, Py.strip.
  now apply has_bracket_lstrip, has_bracket_rstrip, has_bracket_lstrip.
Qed.

(** When the validator returns, it returns the column the text names. *)
Lemma validate_column_index_returns (column_str : string) (num_columns : Z)
    (out out' : Console) (r : option Z) :
  validate_column_index column_str num_columns out = (Ok r, out') ->
  r = column_reference column_str num_columns
  /\ List.length out'
     = match r with
       | Some _ => List.length out
       | None => S (List.length out)
       end.
Proof.
  rewrite validate_column_index_outcome. cbv zeta.
  unfold column_reference, rejected.
  destruct (Py.int (Py.lstrip "$" (Py.strip column_str))) as [v|e].
  - destruct (in_range v num_columns); [now intros [= <- <-]|].
    destruct (writable num_columns);
      match goal with |- context [markup_ok ?l] => destruct (markup_ok l) end;
      intros [= <- <-]; rewrite ?length_app; simpl; split; auto; lia.
  - match goal with |- context [markup_ok ?l] => destruct (markup_ok l) end;
      intros [= <- <-]; rewrite ?length_app; simpl; split; auto; lia.
Qed.

(** On a text without opening bracket the validator returns. *)
Lemma validate_column_index_plain (column_str : string) (num_columns : Z)
    (out : Console) :
  has_bracket (Py.lstrip "$" (Py.strip column_str)) = false ->
  exists out',
    validate_column_index column_str num_columns out
    = (Ok (column_reference column_str num_columns), out').
Proof.
  intros H. rewrite validate_column_index_outcome. cbv zeta.
  unfold column_reference, rejected.
  rewrite (invalid_line_ok _ H).
  destruct (Py.int (Py.lstrip "$" (Py.strip column_str))) as [v|e].
  - destruct (in_range v num_columns); [eexists; reflexivity|].
    rewrite range_line_ok.
    destruct (writable num_columns); eexists; reflexivity.
  - eexists; reflexivity.
Qed.

Lemma column_reference_iff (column_str : string) (num_columns v : Z) :
  column_reference column_str num_columns = Some v
  <-> Py.int (Py.lstrip "$" (Py.strip column_str)) = Ok v
      /\ 1 <= v <= num_columns.
Proof.
  unfold column_reference.
  destruct (Py.int (Py.lstrip "$" (Py.strip column_str))) as [c|e].
  - destruct (in_range c num_columns) eqn:R.
    + apply in_range_iff in R. split.
      * intros [= <-]. auto.
      * intros [[= ->] _]. reflexivity.
    + split; [discriminate|].
      intros [[= ->] Hv]. apply in_range_iff in Hv. congruence.
  - split; [discriminate|]. intros [Hv _]. discriminate.
Qed.

(** C1 (amended): the Column Index Validator strips the surrounding white
    space, then every leading '$' (not one only), then parses the rest
    as a base-10 integer.  When the parse succeeds and the integer lies
    in [1, n] it returns that integer unchanged and prints nothing;
    otherwise, whenever it returns, it returns None; and it returns on
    every text that holds no opening bracket.  The eight sample calls of
    the specification give 2, 4, 3 and five times None. *)
Theorem validate_column_index_spec :
  (forall (column_str : string) (num_columns : Z) (out : Console),
     let text := Py.lstrip "$" (Py.strip column_str) in
     (forall v : Z,
        Py.int text = Ok v -> 1 <= v <= num_columns ->
        validate_column_index column_str num_columns out
        = (Ok (Some v), out))
     /\ (forall (r : option Z) (out' : Console),
          validate_column_index column_str num_columns out = (Ok r, out') ->
          forall v : Z,
            r = Some v <-> Py.int text = Ok v /\ 1 <= v <= num_columns)
     /\ (has_bracket text = false ->
        exists (r : option Z) (out' : Console),
          validate_column_index column_str num_columns out = (Ok r, out')))
  /\ fst (validate_column_index "2" 5 []) = Ok (Some 2)
  /\ fst (validate_column_index "$4" 5 []) = Ok (Some 4)
  /\ fst (validate_column_index " 3 " 5 []) = Ok (Some 3)
  /\ fst (validate_column_index "0" 5 []) = Ok None
  /\ fst (validate_column_index "6" 5 []) = Ok None
  /\ fst (validate_column_index "abc" 5 []) = Ok None
  /\ fst (validate_column_index "1.5" 5 []) = Ok None
  /\ fst (validate_column_index "" 5 []) = Ok None.
Proof.
  split.
  - intros column_str num_columns out text. split; [|split].
    + intros v Hv Hr. rewrite validate_column_index_outcome. cbv zeta.
      fold text. now rewrite Hv, (proj2 (in_range_iff v num_columns) Hr).
    + intros r out' H v.
      apply validate_column_index_returns in H as [-> _].
      apply column_reference_iff.
    + intros Hb.
      destruct (validate_column_index_plain column_str num_columns out Hb)
        as [out' E].
      eauto.
  - repeat split;
      match goal with
      | |- fst (validate_column_index ?s ?n ?o) = _ =>
          destruct (validate_column_index_plain s n o eq_refl) as [out' ->]
      end; reflexivity.
Qed.

(** The text "[/]" closes the tag of the line that quotes it, so the
    closing tag of the line finds nothing to close: the console refuses
    the line. *)
Lemma validate_column_index_closing_tag (num_columns : Z) (out : Console) :
  validate_column_index "[/]" num_columns out = (Raise MarkupError, out).
Proof.
  rewrite validate_column_index_outcome. cbv zeta.
  change (Py.int (Py.lstrip "$" (Py.strip "[/]")))
    with (@Raise Z Py.invalid_literal).
  cbv beta iota. unfold rejected.
  replace (markup_ok (invalid_line (Py.lstrip "$" (Py.strip "[/]"))))
    with false; [reflexivity|].
  unfold markup_ok, Rich.markup_ok.
  change (Rich.parse (invalid_line (Py.lstrip "$" (Py.strip "[/]"))))
    with [Rich.mkTag "red" None; Rich.mkTag "/" None;
          Rich.mkTag "/red" None].
  cbn [Rich.render Rich.tag_name Rich.parameters].
  change (Py.strip "") with "". cbv iota.
  rewrite closed_ok_plain. cbn [andb Rich.render Rich.tag_name].
  reflexivity.
Qed.

(** C9 (the code departs from it): with a column count of 0 no text is
    accepted, but the text "[/]" is not answered with None: the line that
    reports it is refused by the console, and the validator raises
    MarkupError out of its handler. *)
Theorem validate_column_index_no_columns :
  (forall (column_str : string) (out : Console) (v : Z),
     fst (validate_column_index column_str 0 out) <> Ok (Some v))
  /\ validate_column_index "[/]" 0 [] = (Raise MarkupError, []).
Proof.
  split.
  - intros column_str out v H.
    destruct (validate_column_index column_str 0 out) as [r out'] eqn:E.
    cbn [fst] in H. subst r.
    apply validate_column_index_returns in E as [E _].
    symmetry in E. apply column_reference_iff in E as [_ Hv]. lia.
  - apply validate_column_index_closing_tag.
Qed.

(* ================================================================= *)
(** ** Further properties of the Row Reader and the Row Counter *)

(** X1: A negative limit stops the loop at its first record: no row is read,
    whatever the file holds. *)
Theorem read_csv_rows_negative_limit (file_path : Path) (delimiter : string)
    (m : Z) :
  m < 0 -> read_csv_rows file_path delimiter (Some m) = [].
Proof.
  intros Hm. rewrite read_csv_rows_limited by lia.
  now replace (Z.to_nat m) with 0%nat by lia.
Qed.

(** X2: Whatever the limit, the Row Reader returns no more rows than the Row
    Counter counts, and with no limit exactly as many. *)
Theorem read_csv_rows_within_count (file_path : Path) (delimiter : string)
    (max_rows : option Z) :
  Py.len (read_csv_rows file_path delimiter max_rows)
  <= count_csv_rows file_path delimiter
  /\ Py.len (read_csv_rows file_path delimiter None)
     = count_csv_rows file_path delimiter.
Proof.
  rewrite count_csv_rows_len. split.
  - destruct (read_csv_rows_prefix file_path delimiter max_rows) as [n ->].
    unfold Py.len. rewrite length_map, length_firstn. lia.
  - rewrite read_csv_rows_all. apply len_map.
Qed.

Lemma strip_all_space (s : string) :
  all_space s = true -> Py.strip s = EmptyString.
Proof.
  unfold Py.strip. induction s as [|c t IH]; [reflexivity|].
  cbn [all_space Py.lstrip_by]. intros H.
  apply andb_true_iff in H as [-> Ht]. exact (IH Ht).
Qed.

Lemma nth_error_map_inv {A B : Type} (f : A -> B) (l : list A) (i : nat)
    (y : B) :
  nth_error (List.map f l) i = Some y ->
  exists x, nth_error l i = Some x /\ y = f x.
Proof.
  revert i. induction l as [|a l IH]; intros [|i] H; simpl in H;
    try discriminate.
  - injection H as <-. exists a. auto.
  - apply IH in H as [x [Hx ->]]. exists x. auto.
Qed.

(** X3: The rows read line up with the records of the file: the i-th row is
    the i-th record with each cell stripped, and has as many cells.  A
    cell of white space only is kept, as the empty string. *)
Theorem read_csv_rows_keeps_cells (file_path : Path) (delimiter : string)
    (max_rows : option Z) (i : nat) (row : Row) :
  nth_error (read_csv_rows file_path delimiter max_rows) i = Some row ->
  exists record,
    nth_error (csv_reader file_path delimiter) i = Some record
    /\ row = List.map Py.strip record
    /\ Py.len row = Py.len record
    /\ forall j cell,
         nth_error record j = Some cell -> all_space cell = true ->
         nth_error row j = Some EmptyString.
Proof.
  destruct (read_csv_rows_prefix file_path delimiter max_rows) as [n ->].
  intros H. apply nth_error_map_inv in H as [record [E ->]].
  exists record. repeat split.
  - destruct (Nat.lt_ge_cases i n) as [Hi|Hi].
    + now rewrite nth_error_firstn, (proj2 (Nat.ltb_lt _ _) Hi) in E.
    + rewrite nth_error_firstn, (proj2 (Nat.ltb_ge _ _) Hi) in E.
      discriminate.
  - apply len_map.
  - intros j cell Hj Hsp. rewrite nth_error_map, Hj. cbn.
    now rewrite strip_all_space.
Qed.

(* ================================================================= *)
(** ** Further properties of the Column Counter *)

Lemma max_cells_bound (rows : list Row) (row : Row) :
  In row rows -> Py.len row <= max_cells rows.
Proof.
  induction rows as [|r rows IH]; intros Hin; [contradiction|].
  simpl. destruct Hin as [->|Hin]; [lia|]. specialize (IH Hin). lia.
Qed.

Lemma max_cells_attained (rows : list Row) :
  rows <> [] -> exists row, In row rows /\ Py.len row = max_cells rows.
Proof.
  induction rows as [|r rows IH]; intros Hne; [contradiction|].
  simpl. destruct (Z.le_gt_cases (max_cells rows) (Py.len r)) as [H|H].
  - exists r. split; [now left|lia].
  - destruct rows as [|r' rows'].
    + simpl in H. pose proof (len_nonneg r). lia.
    + destruct IH as [row [Hin Hrow]]; [discriminate|].
      exists row. split; [now right|lia].
Qed.

Lemma max_cells_zero (rows : list Row) :
  max_cells rows = 0 <-> Forall (fun row => row = []) rows.
Proof.
  induction rows as [|r rows IH]; simpl.
  - split; [constructor|reflexivity].
  - pose proof (len_nonneg r) as Hr.
    pose proof (max_cells_nonneg rows) as Hrows. split.
    + intros Hz. constructor.
      * destruct r; [reflexivity|]. unfold Py.len in Hz.
        simpl List.length in Hz. lia.
      * apply IH. lia.
    + intros HF. inversion HF as [|? ? Hnil HF']; subst.
      apply IH in HF'. unfold Py.len. simpl. lia.
Qed.

Lemma get_column_count_value (file_path : Path) (delimiter : string) :
  get_column_count file_path delimiter
  = Ok (max_cells (firstn 5 (csv_reader file_path delimiter))).
Proof.
  unfold get_column_count. rewrite read_csv_rows_limited by lia.
  change (Z.to_nat 5) with 5%nat.
  destruct (firstn 5 (csv_reader file_path delimiter)) as [|row rows];
    [reflexivity|].
  cbn [List.map Py.max]. rewrite max_fold_left by apply len_nonneg.
  now rewrite len_map, max_cells_trim.
Qed.

(** X5: The column count is a bound for each of the first five records and
    is reached by one of them; a wider record further down the file is
    not seen.  It is 0 exactly when the sampled records have no cell. *)
Theorem get_column_count_bounds (file_path : Path) (delimiter : string) :
  let sample := firstn 5 (csv_reader file_path delimiter) in
  exists c : Z,
    get_column_count file_path delimiter = Ok c
    /\ 0 <= c
    /\ (forall record, In record sample -> Py.len record <= c)
    /\ (sample <> [] -> exists record, In record sample /\ Py.len record = c)
    /\ (c = 0 <-> Forall (fun record => record = []) sample).
Proof.
  intros sample. exists (max_cells sample).
  repeat split.
  - apply get_column_count_value.
  - apply max_cells_nonneg.
  - apply max_cells_bound.
  - apply max_cells_attained.
  - apply max_cells_zero.
  - apply max_cells_zero.
Qed.

(* ================================================================= *)
(** ** Further properties of the Header Detector and of the range *)

Lemma isspace_lower_char (c : ascii) :
  Py.isspace (Py.lower_char c) = Py.isspace c.
Proof. destruct c as [[] [] [] [] [] [] [] []]; reflexivity. Qed.

Lemma lstrip_lower (s : string) :
  Py.lstrip_by Py.isspace (Py.lower s) = Py.lower (Py.lstrip_by Py.isspace s).
Proof.
  induction s as [|c t IH]; [reflexivity|].
  cbn [Py.lower Py.lstrip_by]. rewrite isspace_lower_char.
  destruct (Py.isspace c); [exact IH|reflexivity].
Qed.

Lemma rstrip_lower (s : string) :
  Py.rstrip_by Py.isspace (Py.lower s) = Py.lower (Py.rstrip_by Py.isspace s).
Proof.
  induction s as [|c t IH]; [reflexivity|].
  cbn [Py.lower Py.rstrip_by]. rewrite IH, isspace_lower_char.
  destruct (Py.rstrip_by Py.isspace t); cbn [Py.lower];
    [destruct (Py.isspace c)|]; reflexivity.
Qed.

Lemma strip_lower (s : string) : Py.strip (Py.lower s) = Py.lower (Py.strip s).
Proof. unfold Py.strip. now rewrite lstrip_lower, rstrip_lower. Qed.

Lemma map_strip_lower (row : Row) :
  List.map Py.lower (List.map Py.strip row)
  = List.map Py.strip (List.map Py.lower row).
Proof.
  rewrite !map_map. apply map_ext. intros cell. symmetry. apply strip_lower.
Qed.

(** X6: The Header Detector looks at the first record only, and without regard
    to letter case: two files of at least two records whose first records
    are equal up to case get the same answer, whatever follows. *)
Theorem detect_header_row_first_record (file_path file_path' : Path)
    (delimiter delimiter' : string) (first first' second second' : Row)
    (others others' : list Row) :
  csv_reader file_path delimiter = first :: second :: others ->
  csv_reader file_path' delimiter' = first' :: second' :: others' ->
  List.map Py.lower first = List.map Py.lower first' ->
  detect_header_row file_path delimiter
  = detect_header_row file_path' delimiter'.
Proof.
  intros E E' Hcase.
  rewrite !detect_header_row_unfold, !read_csv_rows_all, E, E'.
  cbn [List.length Nat.ltb Nat.leb List.map nth].
  now rewrite !map_strip_lower, Hcase.
Qed.

Lemma detect_header_row_two_records (file_path : Path) (delimiter : string) :
  detect_header_row file_path delimiter = true ->
  (2 <= List.length (csv_reader file_path delimiter))%nat.
Proof.
  rewrite detect_header_row_unfold.
  destruct (Nat.ltb_spec (List.length (csv_reader file_path delimiter)) 2);
    [discriminate|auto].
Qed.

(** X7: The detected range is in order on every file that has a record:
    [start_row > end_row] arises for the empty file only.  The range
    holds every record but a detected header, never a negative number
    of rows. *)
Theorem auto_detect_data_range_order (file_path : Path) (delimiter : string) :
  let range := auto_detect_data_range file_path delimiter in
  let start_row := fst range in
  let end_row := snd range in
  (start_row <= end_row <-> csv_reader file_path delimiter <> [])
  /\ end_row - start_row + 1
     = Py.len (csv_reader file_path delimiter)
       - (if detect_header_row file_path delimiter then 1 else 0)
  /\ 0 <= end_row - start_row + 1.
Proof.
  unfold auto_detect_data_range. cbn [fst snd].
  rewrite count_csv_rows_len.
  pose proof (detect_header_row_two_records file_path delimiter) as H2.
  unfold Py.len.
  destruct (detect_header_row file_path delimiter).
  - specialize (H2 eq_refl).
    destruct (csv_reader file_path delimiter) as [|r rest];
      [simpl in H2; lia|].
    split; [|split; lia].
    split; [discriminate|lia].
  - destruct (csv_reader file_path delimiter) as [|r rest].
    + split; [|split; simpl; lia].
      split; [simpl; lia|congruence].
    + split; [|split; simpl List.length; lia].
      split; [discriminate|simpl List.length; lia].
Qed.

(* ================================================================= *)
(** ** Further properties of the Preview Renderer *)

Lemma read_csv_rows_nonempty (file_path : Path) (delimiter : string) (m : Z) :
  csv_reader file_path delimiter <> [] -> 0 <= m ->
  read_csv_rows file_path delimiter (Some m) <> [].
Proof.
  intros Hne Hm. destruct (Z.eq_dec m 0) as [->|Hm0].
  - rewrite read_csv_rows_zero.
    destruct (csv_reader file_path delimiter); [contradiction|discriminate].
  - rewrite read_csv_rows_limited by exact Hm0.
    destruct (csv_reader file_path delimiter) as [|r rest]; [contradiction|].
    replace (Z.to_nat m) with (S (Z.to_nat (m - 1))) by lia. discriminate.
Qed.

Lemma max_of_rows (rows : list Row) :
  rows <> [] -> Py.max (List.map Py.len rows) = Ok (max_cells rows).
Proof.
  destruct rows as [|row rows]; [contradiction|]. intros _.
  cbn [List.map Py.max]. now rewrite max_fold_left by apply len_nonneg.
Qed.

Lemma fold_add_column {X : Type} (step : Table -> X -> Table)
    (col : X -> Column) (l : list X) (t : Table) :
  (forall t x,
     step t x = add_column t (header (col x)) (style (col x)) (width (col x))) ->
  columns (fold_left step l t) = (columns t ++ List.map col l)%list
  /\ rows_of (fold_left step l t) = rows_of t.
Proof.
  intros Hstep. revert t. induction l as [|x l IH]; intros t; simpl.
  - now rewrite app_nil_r.
  - destruct (IH (step t x)) as [Hc Hr]. rewrite Hc, Hr, Hstep. simpl.
    rewrite <- app_assoc. destruct (col x). auto.
Qed.

Lemma fold_add_row {X : Type} (step : Table -> X -> Table)
    (cells : X -> list string) (l : list X) (t : Table) :
  (forall t x, step t x = add_row t (cells x)) ->
  columns (fold_left step l t) = columns t
  /\ rows_of (fold_left step l t) = (rows_of t ++ List.map cells l)%list.
Proof.
  intros Hstep. revert t. induction l as [|x l IH]; intros t; simpl.
  - now rewrite app_nil_r.
  - destruct (IH (step t x)) as [Hc Hr]. rewrite Hc, Hr, Hstep. simpl.
    now rewrite <- app_assoc.
Qed.

Lemma length_enumerate {A : Type} (start : Z) (l : list A) :
  List.length (Py.enumerate start l) = List.length l.
Proof.
  revert start. induction l as [|x l IH]; intros start; simpl;
    [reflexivity|now rewrite IH].
Qed.

Lemma nth_error_enumerate {A : Type} (start : Z) (l : list A) (k : nat)
    (x : A) :
  nth_error l k = Some x ->
  nth_error (Py.enumerate start l) k = Some (start + Z.of_nat k, x).
Proof.
  revert start k. induction l as [|a l IH]; intros start [|k] H; simpl in H;
    try discriminate.
  - injection H as <-. simpl. now rewrite Z.add_0_r.
  - cbn [Py.enumerate nth_error]. rewrite (IH _ _ H). do 2 f_equal. lia.
Qed.

Lemma in_enumerate {A : Type} (start : Z) (l : list A) (i : Z) (x : A) :
  In (i, x) (Py.enumerate start l) -> In x l.
Proof.
  revert start. induction l as [|a l IH]; intros start; simpl; [auto|].
  intros [[= _ <-]|H]; [now left|right; exact (IH _ H)].
Qed.

Lemma length_range (a b : Z) : List.length (Py.range a b) = Z.to_nat (b - a).
Proof. unfold Py.range. now rewrite length_map, length_seq. Qed.

(** The label of a table row: the row number, the cells, the padding. *)
Local Abbreviation table_row num_columns :=
  (fun entry : Z * Row =>
     (Py.str (fst entry)
      :: snd entry
         ++ repeat EmptyString (Z.to_nat (num_columns - Py.len (snd entry))))%list).

Lemma data_rows_spec (num_columns start : Z) (rows : list Row) (t : Table) :
  columns (data_rows num_columns start rows t) = columns t
  /\ rows_of (data_rows num_columns start rows t)
     = (rows_of t
        ++ List.map (table_row num_columns) (Py.enumerate start rows))%list.
Proof.
  unfold data_rows. apply fold_add_row. intros t' [row_idx row]. reflexivity.
Qed.

Lemma header_columns_spec (show_column_numbers : bool) (first_row : Row)
    (t : Table) :
  List.length (columns (header_columns show_column_numbers first_row t))
  = (List.length (columns t) + List.length first_row)%nat
  /\ rows_of (header_columns show_column_numbers first_row t) = rows_of t.
Proof.
  unfold header_columns.
  match goal with |- context [fold_left ?step _ _] =>
  destruct (fold_add_column step
    (fun '(col_idx, header_name) =>
       mkColumn (if show_column_numbers
                 then header_name ++ " (Col " ++ Py.str (col_idx + 1) ++ ")"
                 else header_name)
                (Some (if col_idx =? 0 then "green" else "")) None)
    (Py.enumerate 0 first_row) t) as [Hc Hr] end.
  { intros t' [col_idx header_name]. reflexivity. }
  rewrite Hc, Hr, length_app, length_map, length_enumerate. auto.
Qed.

Lemma padding_columns_spec (show_column_numbers : bool) (from num_columns : Z)
    (t : Table) :
  List.length (columns (padding_columns show_column_numbers from num_columns t))
  = (List.length (columns t) + Z.to_nat (num_columns - from))%nat
  /\ rows_of (padding_columns show_column_numbers from num_columns t)
     = rows_of t.
Proof.
  unfold padding_columns.
  match goal with |- context [fold_left ?step _ _] =>
  destruct (fold_add_column step
    (fun col_idx =>
       mkColumn (if show_column_numbers
                 then "Col " ++ Py.str (col_idx + 1)
                 else "Column " ++ Py.str (col_idx + 1)) None None)
    (Py.range from num_columns) t) as [Hc Hr] end.
  { intros t' col_idx. reflexivity. }
  rewrite Hc, Hr, length_app, length_map, length_range. auto.
Qed.

Lemma generic_columns_spec (show_column_numbers : bool) (num_columns : Z)
    (t : Table) :
  columns (generic_columns show_column_numbers num_columns t)
  = (columns t
     ++ List.map
          (fun col_idx =>
             if show_column_numbers
             then mkColumn ("Col " ++ Py.str (col_idx + 1))
                           (Some (if col_idx =? 0 then "green" else "")) None
             else mkColumn ("Column " ++ Py.str (col_idx + 1)) None None)
          (Py.range 0 num_columns))%list
  /\ rows_of (generic_columns show_column_numbers num_columns t) = rows_of t.
Proof.
  unfold generic_columns. destruct show_column_numbers.
  - apply (fold_add_column _
      (fun col_idx => mkColumn ("Col " ++ Py.str (col_idx + 1))
                        (Some (if col_idx =? 0 then "green" else "")) None)).
    reflexivity.
  - apply (fold_add_column _
      (fun col_idx => mkColumn ("Column " ++ Py.str (col_idx + 1)) None None)).
    reflexivity.
Qed.

Lemma for_each_pure {X : Type} (l : list X)
    (body : Table -> X -> result Table) (pure : Table -> X -> Table)
    (table : Table) :
  (forall t x, In x l -> body t x = Ok (pure t x)) ->
  for_each l body table = Ok (fold_left pure l table).
Proof.
  revert table. induction l as [|x l IH]; intros table H; [reflexivity|].
  cbn [for_each fold_left]. rewrite (H table x) by now left.
  apply IH. intros t y Hy. apply H. now right.
Qed.

Lemma str_int_ok (n : Z) :
  0 <= n < Py.str_limit -> Py.str_int n = Ok (Py.str n).
Proof.
  intros H. unfold Py.str_int.
  now rewrite Z.abs_eq, (proj2 (Z.ltb_lt _ _)) by lia.
Qed.

Lemma in_enumerate_bound {A : Type} (start : Z) (l : list A) (i : Z) (x : A) :
  In (i, x) (Py.enumerate start l) -> start <= i < start + Py.len l.
Proof.
  revert start. induction l as [|a l IH]; intros start; [contradiction|].
  cbn [Py.enumerate In]. unfold Py.len. cbn [List.length].
  intros [[= <- _]|H]; [lia|].
  apply IH in H. unfold Py.len in H. lia.
Qed.

Lemma in_range_bound (a b i : Z) : In i (Py.range a b) -> a <= i < b.
Proof.
  unfold Py.range. intros H. apply in_map_iff in H as [k [<- Hk]].
  apply in_seq in Hk. lia.
Qed.

Lemma header_columns_loop_ok (show_column_numbers : bool) (first_row : Row)
    (t : Table) :
  Py.len first_row < Py.str_limit ->
  header_columns_loop show_column_numbers first_row t
  = Ok (header_columns show_column_numbers first_row t).
Proof.
  intros Hlen. unfold header_columns_loop, header_columns.
  apply for_each_pure. intros t' [col_idx header_name] Hin.
  apply in_enumerate_bound in Hin.
  destruct show_column_numbers; [|reflexivity].
  cbn [and_then]. now rewrite str_int_ok by lia.
Qed.

Lemma padding_columns_loop_ok (show_column_numbers : bool)
    (from num_columns : Z) (t : Table) :
  0 <= from -> num_columns < Py.str_limit ->
  padding_columns_loop show_column_numbers from num_columns t
  = Ok (padding_columns show_column_numbers from num_columns t).
Proof.
  intros Hfrom Hnum. unfold padding_columns_loop, padding_columns.
  apply for_each_pure. intros t' col_idx Hin.
  apply in_range_bound in Hin.
  now rewrite str_int_ok by lia.
Qed.

Lemma generic_columns_loop_ok (show_column_numbers : bool)
    (num_columns : Z) (t : Table) :
  num_columns < Py.str_limit ->
  generic_columns_loop show_column_numbers num_columns t
  = Ok (generic_columns show_column_numbers num_columns t).
Proof.
  intros Hnum. unfold generic_columns_loop, generic_columns.
  destruct show_column_numbers; apply for_each_pure; intros t' col_idx Hin;
    apply in_range_bound in Hin; now rewrite str_int_ok by lia.
Qed.

Lemma data_rows_loop_ok (num_columns start : Z) (rows : list Row)
    (t : Table) :
  0 <= start -> start + Py.len rows <= Py.str_limit ->
  data_rows_loop num_columns start rows t
  = Ok (data_rows num_columns start rows t).
Proof.
  intros Hstart Hlen. unfold data_rows_loop, data_rows.
  apply for_each_pure. intros t' [row_idx row] Hin.
  apply in_enumerate_bound in Hin.
  now rewrite str_int_ok by lia.
Qed.

Lemma read_csv_rows_len_le (file_path : Path) (delimiter : string)
    (max_rows : option Z) :
  Py.len (read_csv_rows file_path delimiter max_rows)
  <= count_csv_rows file_path delimiter.
Proof.
  rewrite count_csv_rows_len.
  destruct (read_csv_rows_prefix file_path delimiter max_rows) as [n ->].
  unfold Py.len. rewrite length_map, length_firstn. lia.
Qed.

(** What [preview_csv] does when its sample is not empty and the counts
    can be written: it builds the table, and returns the effective
    header flag if the console takes the table. *)
Lemma preview_csv_run (file_path : Path) (delimiter : string) (max_rows : Z)
    (show_column_numbers : bool) (has_header : option bool) (out : Console) :
  let rows := read_csv_rows file_path delimiter (Some max_rows) in
  rows <> [] ->
  count_csv_rows file_path delimiter < Py.str_limit ->
  max_cells rows < Py.str_limit ->
  preview_csv file_path delimiter max_rows show_column_numbers has_header out
  = printed (effective_header file_path delimiter has_header)
            (preview_table file_path delimiter max_rows show_column_numbers
                           has_header)
            out.
Proof.
  intros rows Hne Hcount Hwide.
  pose proof (read_csv_rows_len_le file_path delimiter (Some max_rows))
    as Hle.
  fold rows in Hle.
  unfold preview_csv, preview_table, printed. fold rows.
  fold (effective_header file_path delimiter has_header).
  destruct rows as [|r rest] eqn:Erows; [contradiction|].
  cbn [is_empty negb]. rewrite andb_true_r.
  unfold bind, lift, ret.
  rewrite max_of_rows by discriminate.
  pose proof (len_nonneg (r :: rest)) as Hpos.
  rewrite (str_int_ok (Py.len (r :: rest))) by lia.
  rewrite (str_int_ok (count_csv_rows file_path delimiter)) by lia.
  pose proof (max_cells_bound (r :: rest) r (or_introl eq_refl)) as Hfirst.
  pose proof (len_nonneg r) as Hr.
  cbn [nth tl].
  assert (Hrest : 2 + Py.len rest <= Py.str_limit)
    by (unfold Py.len in *; cbn [List.length] in *; lia).
  destruct (effective_header file_path delimiter has_header).
  - rewrite header_columns_loop_ok by lia. cbn [and_then].
    rewrite padding_columns_loop_ok by lia. cbn [and_then].
    rewrite data_rows_loop_ok by lia.
    unfold console_print.
    match goal with |- context [accepts ?x] => destruct (accepts x) end;
      reflexivity.
  - rewrite generic_columns_loop_ok by lia. cbn [and_then].
    rewrite data_rows_loop_ok by lia.
    unfold console_print.
    match goal with |- context [accepts ?x] => destruct (accepts x) end;
      reflexivity.
Qed.


(** X9: With a negative limit the sample is empty, so the Preview Renderer
    reports an empty file and returns false, whatever the file holds and
    whatever the override. *)
Theorem preview_csv_negative_limit (file_path : Path) (delimiter : string)
    (max_rows : Z) (show_column_numbers : bool) (has_header : option bool)
    (out : Console) :
  max_rows < 0 ->
  preview_csv file_path delimiter max_rows show_column_numbers has_header out
  = (Ok false,
     (out ++ [Markup "[yellow]Warning: CSV file is empty[/yellow]"])%list).
Proof.
  intros Hm. unfold preview_csv.
  rewrite read_csv_rows_limited by lia.
  replace (Z.to_nat max_rows) with 0%nat by lia.
  cbn [firstn List.map is_empty]. unfold bind, ret.
  now rewrite console_print_warning.
Qed.

Lemma len_app {A : Type} (l l' : list A) :
  Py.len (l ++ l') = Py.len l + Py.len l'.
Proof. unfold Py.len. rewrite length_app. lia. Qed.

Lemma len_table_row (num_columns : Z) (entry : Z * Row) :
  Py.len (snd entry) <= num_columns ->
  Py.len (table_row num_columns entry) = 1 + num_columns.
Proof.
  intros H. pose proof (len_nonneg (snd entry)).
  unfold Py.len in *. cbn [List.length].
  rewrite length_app, repeat_length. lia.
Qed.



Lemma fold_keeps_frame {X : Type} (step : Table -> X -> Table)
    (l : list X) (t : Table) :
  (forall t x, title (step t x) = title t /\ caption (step t x) = caption t) ->
  title (fold_left step l t) = title t
  /\ caption (fold_left step l t) = caption t.
Proof.
  intros Hstep. revert t. induction l as [|x l IH]; intros t; simpl; [auto|].
  destruct (IH (step t x)) as [-> ->]. apply Hstep.
Qed.

Lemma data_rows_frame (num_columns start : Z) (rows : list Row) (t : Table) :
  title (data_rows num_columns start rows t) = title t
  /\ caption (data_rows num_columns start rows t) = caption t.
Proof.
  unfold data_rows. apply fold_keeps_frame.
  intros t' [row_idx row]. split; reflexivity.
Qed.

Lemma header_columns_frame (show_column_numbers : bool) (first_row : Row)
    (t : Table) :
  title (header_columns show_column_numbers first_row t) = title t
  /\ caption (header_columns show_column_numbers first_row t) = caption t.
Proof.
  unfold header_columns. apply fold_keeps_frame.
  intros t' [col_idx header_name]. split; reflexivity.
Qed.

Lemma padding_columns_frame (show_column_numbers : bool)
    (from num_columns : Z) (t : Table) :
  title (padding_columns show_column_numbers from num_columns t) = title t
  /\ caption (padding_columns show_column_numbers from num_columns t)
     = caption t.
Proof.
  unfold padding_columns. apply fold_keeps_frame.
  intros t' col_idx. split; reflexivity.
Qed.

Lemma generic_columns_frame (show_column_numbers : bool) (num_columns : Z)
    (t : Table) :
  title (generic_columns show_column_numbers num_columns t) = title t
  /\ caption (generic_columns show_column_numbers num_columns t) = caption t.
Proof.
  unfold generic_columns. destruct show_column_numbers;
    apply fold_keeps_frame; intros t' col_idx; split; reflexivity.
Qed.


Lemma nth_error_range (a b : Z) (j : nat) :
  (j < Z.to_nat (b - a))%nat ->
  nth_error (Py.range a b) j = Some (a + Z.of_nat j).
Proof.
  intros Hj. unfold Py.range.
  apply (map_nth_error (fun i => a + Z.of_nat i) j).
  rewrite (nth_error_nth' _ 0%nat) by now rewrite length_seq.
  now rewrite seq_nth.
Qed.

(** The label of the column of 0-based position [j]: the header cell with
    its number when there is one, the bare number otherwise. *)
Local Abbreviation column_label show_column_numbers header_cell j :=
  (match header_cell with
   | Some header_name =>
       if show_column_numbers
       then header_name ++ " (Col " ++ Py.str (Z.of_nat j + 1) ++ ")"
       else header_name
   | None =>
       (if show_column_numbers then "Col " else "Column ")
       ++ Py.str (Z.of_nat j + 1)
   end).

Lemma header_columns_labels (show_column_numbers : bool) (first_row : Row)
    (num_columns : Z) (t : Table) (j : nat) :
  Py.len first_row <= num_columns ->
  Z.of_nat j < num_columns ->
  exists col,
    nth_error
      (columns (padding_columns show_column_numbers (Py.len first_row)
                  num_columns
                  (header_columns show_column_numbers first_row t)))
      (List.length (columns t) + j)
    = Some col
    /\ header col
       = column_label show_column_numbers (nth_error first_row j) j.
Proof.
  intros Hfirst Hj. unfold padding_columns, header_columns.
  match goal with
  | |- context [fold_left ?pad (Py.range ?a ?b) (fold_left ?hd ?l t)] =>
      destruct (fold_add_column pad
        (fun col_idx =>
           mkColumn (if show_column_numbers
                     then "Col " ++ Py.str (col_idx + 1)
                     else "Column " ++ Py.str (col_idx + 1)) None None)
        (Py.range a b) (fold_left hd l t)) as [Hpc _];
      [intros t' col_idx; reflexivity|];
      destruct (fold_add_column hd
        (fun '(col_idx, header_name) =>
           mkColumn (if show_column_numbers
                     then header_name ++ " (Col " ++ Py.str (col_idx + 1)
                          ++ ")"
                     else header_name)
                    (Some (if col_idx =? 0 then "green" else "")) None)
        l t) as [Hhc _];
      [intros t' [col_idx header_name]; reflexivity|]
  end.
  rewrite Hpc, Hhc, <- app_assoc.
  rewrite nth_error_app2 by lia.
  replace (List.length (columns t) + j - List.length (columns t))%nat
    with j by lia.
  destruct (nth_error first_row j) as [header_name|] eqn:E.
  - rewrite nth_error_app1
      by (rewrite length_map, length_enumerate;
          apply nth_error_Some; congruence).
    rewrite (map_nth_error _ _ _ (nth_error_enumerate 0 _ _ _ E)).
    eexists. split; [reflexivity|]. cbn [header]. rewrite Z.add_0_l.
    reflexivity.
  - apply nth_error_None in E.
    rewrite nth_error_app2 by (rewrite length_map, length_enumerate; lia).
    rewrite length_map, length_enumerate.
    erewrite map_nth_error
      by (apply nth_error_range; unfold Py.len in *; lia).
    eexists. split; [reflexivity|]. cbn [header].
    replace (Py.len first_row + Z.of_nat (j - List.length first_row) + 1)
      with (Z.of_nat j + 1) by (unfold Py.len; lia).
    destruct show_column_numbers; reflexivity.
Qed.


(* ================================================================= *)
(** ** Further properties of the Column Index Validator *)

(** The validator accepts exactly the texts that name a column. *)
Lemma validate_column_index_accepts (column_str : string) (num_columns v : Z)
    (out : Console) :
  fst (validate_column_index column_str num_columns out) = Ok (Some v)
  <-> column_reference column_str num_columns = Some v.
Proof.
  rewrite validate_column_index_outcome. cbv zeta.
  unfold column_reference, rejected.
  destruct (Py.int (Py.lstrip "$" (Py.strip column_str))) as [c|e].
  - destruct (in_range c num_columns).
    + cbn [fst]. split; congruence.
    + destruct (writable num_columns);
        match goal with |- context [markup_ok ?l] => destruct (markup_ok l)
        end; cbn [fst]; split; discriminate.
  - match goal with |- context [markup_ok ?l] => destruct (markup_ok l) end;
      cbn [fst]; split; discriminate.
Qed.


Lemma strip_idempotent (s : string) : Py.strip (Py.strip s) = Py.strip s.
Proof. apply trimmed_strip, strip_trimmed. Qed.

Lemma strip_marker (s : string) :
  trimmed s = true -> Py.strip (String "$" s) = String "$" s.
Proof.
  intros H. unfold Py.strip. cbn [Py.lstrip_by].
  change (Py.isspace "$") with false. cbv iota.
  assert (Hr : Py.rstrip_by Py.isspace s = s).
  { apply rstrip_by_id. unfold trimmed in H.
    apply andb_true_iff in H as [_ Hl]. apply negb_true_iff in Hl.
    destruct (last_char s); [exact Hl|exact I]. }
  cbn [Py.rstrip_by]. rewrite Hr. destruct s; reflexivity.
Qed.

(** X15: The marker and the surrounding white space are optional: the text
    without its white space, with or without a '$' put in front, is
    validated exactly as the text itself, messages included. *)
Theorem validate_column_index_marker_optional (column_str : string)
    (num_columns : Z) (out : Console) :
  validate_column_index (Py.strip column_str) num_columns out
  = validate_column_index column_str num_columns out
  /\ validate_column_index (String "$" (Py.strip column_str)) num_columns out
     = validate_column_index column_str num_columns out.
Proof.
  unfold validate_column_index.
  rewrite strip_idempotent, (strip_marker _ (strip_trimmed column_str)).
  split; reflexivity.
Qed.

(** X16: A reference accepted among n columns is accepted, as the same column,
    among any larger number of columns. *)
Theorem validate_column_index_monotone (column_str : string)
    (num_columns num_columns' v : Z) (out out' : Console) :
  fst (validate_column_index column_str num_columns out) = Ok (Some v) ->
  num_columns <= num_columns' ->
  fst (validate_column_index column_str num_columns' out') = Ok (Some v).
Proof.
  rewrite !validate_column_index_accepts. unfold column_reference.
  destruct (Py.int (Py.lstrip "$" (Py.strip column_str))) as [c|e];
    [|discriminate].
  destruct (in_range c num_columns) eqn:R; [|discriminate].
  intros [= ->] Hle. apply in_range_iff in R.
  now rewrite (proj2 (in_range_iff v num_columns')) by lia.
Qed.

(** X17: A reference accepted against the Column Counter's count names a cell
    that exists in at least one of the first five records. *)
Theorem validate_column_index_names_a_cell (file_path : Path)
    (delimiter : string) (column_str : string) (num_columns v : Z)
    (out : Console) :
  get_column_count file_path delimiter = Ok num_columns ->
  fst (validate_column_index column_str num_columns out) = Ok (Some v) ->
  exists record cell,
    In record (firstn 5 (csv_reader file_path delimiter))
    /\ nth_error record (Z.to_nat (v - 1)) = Some cell.
Proof.
  rewrite get_column_count_value, validate_column_index_accepts.
  remember (firstn 5 (csv_reader file_path delimiter)) as sample eqn:Es.
  intros Hn. injection Hn as <-. unfold column_reference.
  destruct (Py.int (Py.lstrip "$" (Py.strip column_str))) as [c|e];
    [|discriminate].
  destruct (in_range c _) eqn:R; [|discriminate].
  intros [= ->]. apply in_range_iff in R.
  destruct (max_cells_attained sample) as [record [Hin Hlen]].
  { intros E. rewrite E in R. simpl in R. lia. }
  exists record.
  destruct (nth_error record (Z.to_nat (v - 1))) as [cell|] eqn:E.
  - exists cell. auto.
  - apply nth_error_None in E. unfold Py.len in Hlen. lia.
Qed.

(* ----------------------------------------------------------------- *)
(** *** Numbers written by [str] and read back by [int] *)

Lemma uint_value_pos (d : Decimal.uint) (acc : positive) :
  uint_value d (Zpos acc) = Zpos (Pos.of_uint_acc d acc).
Proof.
  revert acc. induction d; intros acc; cbn [uint_value Pos.of_uint_acc];
    [reflexivity|..];
    match goal with |- uint_value _ ?z = Z.pos (Pos.of_uint_acc _ ?q) =>
      replace z with (Z.pos q)
        by (rewrite ?Pos2Z.inj_add, ?Pos2Z.inj_mul; lia)
    end; apply IHd.
Qed.

Lemma uint_value_zero (d : Decimal.uint) :
  uint_value d 0 = Z.of_N (Pos.of_uint d).
Proof.
  induction d; cbn [uint_value Pos.of_uint]; [reflexivity|exact IHd|..];
    match goal with
    | |- uint_value _ ?z = Z.of_N (N.pos (Pos.of_uint_acc _ ?q)) =>
        change z with (Z.pos q)
    end; apply uint_value_pos.
Qed.

Lemma scan_digits_numeral (d : Decimal.uint) (digits : nat) (acc : Z) :
  Py.scan_digits (NilEmpty.string_of_uint d) false digits acc
  = Some (uint_value d acc, (digits + Decimal.nb_digits d)%nat, EmptyString).
Proof.
  revert digits acc.
  induction d; intros digits acc;
    cbn [NilEmpty.string_of_uint Py.scan_digits uint_value Decimal.nb_digits];
    [now rewrite Nat.add_0_r|..];
    match goal with |- context [Ascii.eqb ?c "_"] =>
      change (Ascii.eqb c "_") with false;
      let v := eval vm_compute in (Py.digit_value c) in
      change (Py.digit_value c) with v
    end; cbv iota; rewrite IHd, ?Z.add_0_r, Nat.add_succ_r; reflexivity.
Qed.

Lemma length_numeral (d : Decimal.uint) :
  String.length (NilEmpty.string_of_uint d) = Decimal.nb_digits d.
Proof. induction d; simpl; congruence. Qed.

Lemma lstrip_numeral (p : ascii -> bool) (d : Decimal.uint) :
  (forall c, Py.digit_value c <> None -> p c = false) ->
  Py.lstrip_by p (NilEmpty.string_of_uint d) = NilEmpty.string_of_uint d.
Proof.
  intros Hp. destruct d; cbn [NilEmpty.string_of_uint Py.lstrip_by];
    [reflexivity|..]; rewrite Hp;
    solve [reflexivity | vm_compute; discriminate].
Qed.

Lemma rstrip_numeral (d : Decimal.uint) :
  Py.rstrip_by Py.isspace (NilEmpty.string_of_uint d)
  = NilEmpty.string_of_uint d.
Proof.
  induction d; cbn [NilEmpty.string_of_uint Py.rstrip_by];
    [reflexivity|..]; rewrite IHd;
    destruct (NilEmpty.string_of_uint d); reflexivity.
Qed.

Lemma digit_not_space (c : ascii) :
  Py.digit_value c <> None -> Py.isspace c = false /\ Py.int_space c = false
  /\ Py.mem_char c "$" = false.
Proof.
  destruct c as [[] [] [] [] [] [] [] []]; vm_compute; intros H;
    try (now elim H); auto.
Qed.

(** [int] reads a numeral of at most [int_max_str_digits] digits as its
    value. *)
Lemma int_numeral (d : Decimal.uint) :
  d <> Decimal.Nil ->
  (Decimal.nb_digits d <= Py.int_max_str_digits)%nat ->
  Py.int (NilEmpty.string_of_uint d) = Ok (uint_value d 0).
Proof.
  intros Hd Hlen.
  assert (Hscan := scan_digits_numeral d 0 0).
  assert (Hnz : (Decimal.nb_digits d =? 0)%nat = false)
    by (apply Nat.eqb_neq; destruct d; simpl; congruence).
  apply Nat.ltb_ge in Hlen.
  unfold Py.int.
  destruct d; [contradiction|..];
    cbn [NilEmpty.string_of_uint Py.lstrip_by] in Hscan |- *;
    match goal with |- context [Py.int_space ?c] =>
      change (Py.int_space c) with false end;
    cbv iota; rewrite Hscan; cbn [Nat.add];
    rewrite Hnz, Hlen; cbn [Py.lstrip_by]; now rewrite Z.mul_1_l.
Qed.

Lemma int_str (v : Z) :
  1 <= v ->
  (String.length (Py.str v) <= Py.int_max_str_digits)%nat ->
  Py.int (Py.str v) = Ok v
  /\ Py.strip (Py.str v) = Py.str v
  /\ Py.lstrip "$" (Py.str v) = Py.str v.
Proof.
  intros Hv Hlen. destruct v as [|p|p]; try lia.
  change (Py.str (Z.pos p)) with (NilEmpty.string_of_uint (Pos.to_uint p))
    in *.
  rewrite length_numeral in Hlen.
  pose proof (Unsigned.to_uint_nonnil p) as Hnil.
  repeat split.
  - rewrite int_numeral by assumption.
    now rewrite uint_value_zero, Unsigned.of_to.
  - unfold Py.strip. rewrite lstrip_numeral; [apply rstrip_numeral|].
    intros c Hc. apply (digit_not_space c Hc).
  - unfold Py.lstrip. apply lstrip_numeral.
    intros c Hc. apply (digit_not_space c Hc).
Qed.

(** X18: Every column number of the range is accepted when written in decimal,
    bare or behind the marker, and names itself; nothing is printed.
    (Numbers of more than [int_max_str_digits] digits are beyond what
    [int] reads.) *)
Theorem validate_column_index_accepts_number (v num_columns : Z)
    (out : Console) :
  1 <= v <= num_columns ->
  (String.length (Py.str v) <= Py.int_max_str_digits)%nat ->
  validate_column_index (Py.str v) num_columns out = (Ok (Some v), out)
  /\ validate_column_index (String "$" (Py.str v)) num_columns out
     = (Ok (Some v), out).
Proof.
  intros Hv Hlen.
  destruct (int_str v (proj1 Hv) Hlen) as [Hint [Hstrip Hmark]].
  assert (Htrim : trimmed (Py.str v) = true)
    by (rewrite <- Hstrip; apply strip_trimmed).
  unfold validate_column_index. rewrite (strip_marker _ Htrim), Hstrip.
  change (Py.lstrip "$" (String "$" (Py.str v)))
    with (Py.lstrip "$" (Py.str v)).
  rewrite Hmark.
  unfold try_except_ValueError, bind, lift, ret. rewrite Hint.
  rewrite (proj2 (in_range_iff v num_columns) Hv). auto.
Qed.

(* ================================================================= *)
(** ** The wizard's loops over the validator *)

Lemma column_reference_in_range (column_str : string) (num_columns v : Z) :
  column_reference column_str num_columns = Some v -> 1 <= v <= num_columns.
Proof.
  unfold column_reference.
  destruct (Py.int (Py.lstrip "$" (Py.strip column_str))) as [c|e];
    [|discriminate].
  destruct (in_range c num_columns) eqn:R; [|discriminate].
  intros [= <-]. now apply in_range_iff.
Qed.

Lemma validate_column_index_plain_answer (column_str : string)
    (num_columns : Z) (out : Console) :
  has_bracket column_str = false ->
  exists out',
    validate_column_index column_str num_columns out
    = (Ok (column_reference column_str num_columns), out').
Proof.
  intros H. apply validate_column_index_plain. now apply has_bracket_text.
Qed.

(** X19: The loop for a required column ends at the first answer the validator
    accepts, with the column that answer names, a column of the range;
    as long as every answer is rejected with None it asks again.  The
    loop raises what the validator raises: it returns (having ended or
    asking again) when no answer holds an opening bracket, and the
    answer "[/]" ends it with MarkupError, the answers behind it unread
    and nothing printed. *)
Theorem ask_required_column_result (answers : list string) (num_columns : Z)
    (out : Console) :
  (forall (r : asked Z) (out' : Console),
     ask_required_column answers num_columns out = (Ok r, out') ->
     match r with
     | Answered column =>
         1 <= column <= num_columns
         /\ exists rejected answer rest,
              answers = (rejected ++ answer :: rest)%list
              /\ Forall (fun a => column_reference a num_columns = None)
                        rejected
              /\ column_reference answer num_columns = Some column
     | Asking =>
         Forall (fun a => column_reference a num_columns = None) answers
     end)
  /\ (Forall (fun a => has_bracket a = false) answers ->
      exists (r : asked Z) (out' : Console),
        ask_required_column answers num_columns out = (Ok r, out'))
  /\ ask_required_column ("[/]" :: answers) num_columns out
     = (Raise MarkupError, out).
Proof.
  split; [|split].
  - revert out. induction answers as [|a answers IH]; intros out r out'.
    + intros [= <- _]. constructor.
    + cbn [ask_required_column]. unfold bind.
      destruct (validate_column_index a num_columns out) as [[c|e] out1]
        eqn:E; [|discriminate].
      apply validate_column_index_returns in E as [E _]. symmetry in E.
      destruct c as [v|].
      * intros [= <- _]. split.
        -- exact (column_reference_in_range _ _ _ E).
        -- exists [], a, answers. repeat split; [constructor|exact E].
      * intros Hrun. specialize (IH _ _ _ Hrun).
        destruct r as [column|].
        -- destruct IH as [Hrange [rejected [answer [rest [-> [HF Hans]]]]]].
           split; [exact Hrange|].
           exists (a :: rejected), answer, rest.
           repeat split; [constructor; assumption|exact Hans].
        -- constructor; assumption.
  - intros Hplain. revert out.
    induction Hplain as [|a answers Ha _ IH]; intros out.
    + do 2 eexists. reflexivity.
    + cbn [ask_required_column]. unfold bind.
      destruct (validate_column_index_plain_answer a num_columns out Ha)
        as [out1 ->].
      destruct (column_reference a num_columns) as [v|].
      * do 2 eexists. reflexivity.
      * apply IH.
  - cbn [ask_required_column]. unfold bind.
    now rewrite validate_column_index_closing_tag.
Qed.

(** X20: When the sampled records have no cell, as in an empty file, the
    Column Counter gives 0 and the loop for a required column never ends
    with a column: whenever it returns it is asking again, every answer
    rejected with one message; it returns so when no answer holds an
    opening bracket. *)
Theorem ask_required_column_no_columns (file_path : Path)
    (delimiter : string) (answers : list string) (out : Console) :
  Forall (fun record => record = [])
         (firstn 5 (csv_reader file_path delimiter)) ->
  get_column_count file_path delimiter = Ok 0
  /\ (forall (r : asked Z) (out' : Console),
        ask_required_column answers 0 out = (Ok r, out') ->
        r = Asking
        /\ List.length out' = (List.length out + List.length answers)%nat)
  /\ (Forall (fun a => has_bracket a = false) answers ->
      exists out' : Console,
        ask_required_column answers 0 out = (Ok Asking, out')).
Proof.
  intros Hblank.
  assert (Hnone : forall a, column_reference a 0 = None).
  { intros a. destruct (column_reference a 0) as [v|] eqn:E; [|reflexivity].
    apply column_reference_in_range in E. lia. }
  split; [|split].
  - rewrite get_column_count_value. f_equal. now apply max_cells_zero.
  - revert out. induction answers as [|a answers IH]; intros out r out'.
    + intros [= <- <-]. split; [reflexivity|simpl; lia].
    + cbn [ask_required_column]. unfold bind.
      destruct (validate_column_index a 0 out) as [[c|e] out1] eqn:E;
        [|discriminate].
      apply validate_column_index_returns in E as [E Hlen].
      rewrite Hnone in E. subst c.
      intros Hrun. destruct (IH _ _ _ Hrun) as [-> Hlen'].
      split; [reflexivity|]. simpl. lia.
  - intros Hplain. revert out.
    induction Hplain as [|a answers Ha _ IH]; intros out.
    + eexists. reflexivity.
    + cbn [ask_required_column]. unfold bind.
      destruct (validate_column_index_plain_answer a 0 out Ha) as [out1 ->].
      rewrite Hnone. apply IH.
Qed.

(** X21: The loop for the optional country column ends at the first answer
    that is empty, with no column, or that the validator accepts, with
    the column it names; an answer that is neither, rejected with None,
    is asked again.  The loop raises what the validator raises: it
    returns when no answer holds an opening bracket, and the answer
    "[/]" ends it with MarkupError, nothing printed. *)
Theorem ask_country_column_result (answers : list string) (num_columns : Z)
    (out : Console) :
  let retried a := a <> EmptyString /\ column_reference a num_columns = None in
  (forall (r : asked (option Z)) (out' : Console),
     ask_country_column answers num_columns out = (Ok r, out') ->
     match r with
     | Answered (Some column) =>
         1 <= column <= num_columns
         /\ exists rejected answer rest,
              answers = (rejected ++ answer :: rest)%list
              /\ Forall retried rejected
              /\ answer <> EmptyString
              /\ column_reference answer num_columns = Some column
     | Answered None =>
         exists rejected rest,
           answers = (rejected ++ EmptyString :: rest)%list
           /\ Forall retried rejected
     | Asking => Forall retried answers
     end)
  /\ (Forall (fun a => has_bracket a = false) answers ->
      exists (r : asked (option Z)) (out' : Console),
        ask_country_column answers num_columns out = (Ok r, out'))
  /\ ask_country_column ("[/]" :: answers) num_columns out
     = (Raise MarkupError, out).
Proof.
  intros retried. split; [|split].
  - revert out. induction answers as [|a answers IH]; intros out r out'.
    + intros [= <- _]. constructor.
    + cbn [ask_country_column].
      destruct (String.eqb_spec a "") as [->|Hne].
      * intros [= <- _]. exists [], answers.
        split; [reflexivity|constructor].
      * unfold bind.
        destruct (validate_column_index a num_columns out) as [[c|e] out1]
          eqn:E; [|discriminate].
        apply validate_column_index_returns in E as [E _]. symmetry in E.
        destruct c as [v|].
        -- intros [= <- _]. split.
           ++ exact (column_reference_in_range _ _ _ E).
           ++ exists [], a, answers.
              repeat split; [constructor|exact Hne|exact E].
        -- intros Hrun. specialize (IH _ _ _ Hrun).
           assert (Ha : retried a) by (split; assumption).
           destruct r as [[column|]|].
           ++ destruct IH
                as [Hrange [rejected [answer [rest [-> [HF [Hn Hans]]]]]]].
              split; [exact Hrange|].
              exists (a :: rejected), answer, rest.
              repeat split; [constructor; assumption|exact Hn|exact Hans].
           ++ destruct IH as [rejected [rest [-> HF]]].
              exists (a :: rejected), rest.
              split; [reflexivity|constructor; assumption].
           ++ constructor; assumption.
  - intros Hplain. revert out.
    induction Hplain as [|a answers Ha _ IH]; intros out.
    + do 2 eexists. reflexivity.
    + cbn [ask_country_column].
      destruct (String.eqb a ""); [do 2 eexists; reflexivity|].
      unfold bind.
      destruct (validate_column_index_plain_answer a num_columns out Ha)
        as [out1 ->].
      destruct (column_reference a num_columns) as [v|].
      * do 2 eexists. reflexivity.
      * apply IH.
  - cbn [ask_country_column]. change (String.eqb "[/]" "") with false.
    cbv iota. unfold bind.
    now rewrite validate_column_index_closing_tag.
Qed.

(** X22: The number of teams the wizard announces is the number of records,
    less one for a header; it is negative only when a header is claimed
    for a file without records.  With the Header Detector's own answer
    for flag the range is the Auto Range Detector's and the number is
    never negative. *)
Theorem detected_range_teams (file_path : Path) (delimiter : string)
    (has_header : bool) :
  let total_rows := count_csv_rows file_path delimiter in
  let detected_teams_count := snd (detected_range has_header total_rows) in
  detected_teams_count
  = Py.len (csv_reader file_path delimiter) - (if has_header then 1 else 0)
  /\ (detected_teams_count < 0
      <-> has_header = true /\ csv_reader file_path delimiter = [])
  /\ fst (detected_range (detect_header_row file_path delimiter) total_rows)
     = auto_detect_data_range file_path delimiter
  /\ 0 <= snd (detected_range (detect_header_row file_path delimiter)
                              total_rows).
Proof.
  unfold detected_range, auto_detect_data_range. cbn [fst snd].
  rewrite count_csv_rows_len.
  pose proof (detect_header_row_two_records file_path delimiter) as H2.
  unfold Py.len.
  destruct (csv_reader file_path delimiter) as [|r rest] eqn:E.
  - split; [destruct has_header; simpl; lia|]. split.
    + destruct has_header; simpl.
      * split; [auto|lia].
      * split; [lia|intros [Hf _]; discriminate].
    + split; [reflexivity|].
      destruct (detect_header_row file_path delimiter);
        [specialize (H2 eq_refl); simpl in H2; lia|simpl; lia].
  - split; [destruct has_header; lia|]. split.
    + simpl List.length. split.
      * destruct has_header; lia.
      * intros [_ Hnil]. discriminate.
    + split; [reflexivity|].
      destruct (detect_header_row file_path delimiter);
        [specialize (H2 eq_refl)|]; simpl List.length in *; lia.
Qed.

End Analyzer.

Arguments Answered {A} a.
Arguments Asking {A}.

(* ================================================================= *)
(** ** The properties at sample files *)

Example builtins_samples :
  Py.int "007" = Ok 7
  /\ Py.int " -1_0 " = Ok (-10)
  /\ Py.int "1__0" = Raise Py.invalid_literal
  /\ Py.int "+" = Raise Py.invalid_literal
  /\ Py.strip "  Team A  " = "Team A"
  /\ Py.lower "Team ID" = "team id"
  /\ Py.str (-12) = "-12"
  /\ Py.contains "id" "ravi delhi" = false.
Proof. repeat split; reflexivity. Qed.

(** C2 (the code departs from it): asked for at most 0 rows, the Row
    Reader reads the whole file; the three records of the ragged file
    are all returned. *)
Theorem read_csv_rows_zero_limit_reads_all :
  read_csv_rows (reader_of ragged_file) teams_csv "," (Some 0) = ragged_file
  /\ Py.len (read_csv_rows (reader_of ragged_file) teams_csv "," (Some 0)) = 3
  /\ forall csv_reader file_path delimiter,
       read_csv_rows csv_reader file_path delimiter (Some 0)
       = read_csv_rows csv_reader file_path delimiter None.
Proof.
  repeat split.
  intros csv_reader file_path delimiter.
  now rewrite read_csv_rows_zero, read_csv_rows_all.
Qed.

(** The text "$$4" is accepted as column 4 by the code; with one marker
    removed, as the specification words it, "$4" is left and is no
    integer. *)
Lemma validate_column_index_two_markers :
  validate_column_index sample_normalize sample_handlers "$$4" 5 []
  = (Ok (Some 4), [])
  /\ validate_as_specified "$$4" 5 = None
  /\ fst (validate_column_index sample_normalize sample_handlers "$$4" 5 [])
     <> Ok (validate_as_specified "$$4" 5).
Proof. repeat split. discriminate. Qed.

(** The first row Ravi,Delhi holds no keyword in either cell, and the code
    answers false; the concatenation "ravidelhi" holds "id". *)
Lemma detect_header_row_split_keyword :
  detect_header_row (reader_of split_keyword_file) teams_csv "," = false
  /\ detect_header_as_specified (reader_of split_keyword_file) teams_csv ","
     = true.
Proof. split; reflexivity. Qed.

Lemma detect_header_row_keywords_witness :
  (2 <= List.length (reader_of header_file teams_csv ","))%nat
  /\ reader_of header_file teams_csv ","
     = ["id"; "name"; "affiliation"; "country"]
         :: ["1"; "Team Alpha"; "University A"; "USA"] :: []
  /\ detect_header_row (reader_of header_file) teams_csv "," = true
  /\ (List.length (reader_of [ ["name"; "affiliation"] ] teams_csv ",") < 2)%nat
  /\ detect_header_row (reader_of [ ["name"; "affiliation"] ]) teams_csv ","
     = false.
Proof.
  split; [simpl; lia|]. split; [reflexivity|]. split.
  - apply (proj2 (proj2 (proj2
      (detect_header_row_keywords (reader_of header_file) teams_csv ",")))
      ["1"; "Team Alpha"; "University A"; "USA"] []).
    reflexivity.
  - split; [simpl; lia|].
    apply (proj1
      (detect_header_row_keywords (reader_of [ ["name"; "affiliation"] ])
                                  teams_csv ",")).
    simpl; lia.
Defined.

Lemma auto_detect_data_range_law_witness :
  reader_of [] teams_csv "," = []
  /\ auto_detect_data_range (reader_of []) teams_csv "," = (1, 0).
Proof.
  split; [reflexivity|].
  apply (proj2 (auto_detect_data_range_law (reader_of []) teams_csv ",")).
  reflexivity.
Defined.

Lemma get_column_count_max_witness :
  reader_of ragged_file teams_csv "," = ragged_file
  /\ get_column_count (reader_of ragged_file) teams_csv "," = Ok 4.
Proof.
  split; [reflexivity|].
  apply (proj2 (proj2
    (get_column_count_max (reader_of ragged_file) teams_csv ","))).
  reflexivity.
Defined.

Lemma count_csv_rows_total_witness :
  reader_of [] teams_csv "," = []
  /\ count_csv_rows (reader_of []) teams_csv "," = 0.
Proof.
  split; [reflexivity|].
  apply (proj1 (proj2 (count_csv_rows_total (reader_of []) teams_csv ","))).
  reflexivity.
Defined.

Lemma read_csv_rows_trims_witness :
  reader_of [ ["  Team A  "; " Uni A "] ] teams_csv ","
  = [ ["  Team A  "; " Uni A "] ]
  /\ read_csv_rows (reader_of [ ["  Team A  "; " Uni A "] ]) teams_csv "," None
     = [ ["Team A"; "Uni A"] ].
Proof.
  split; [reflexivity|].
  apply (proj2 (proj2
    (read_csv_rows_trims (reader_of [ ["  Team A  "; " Uni A "] ])
                         teams_csv "," None))).
  reflexivity.
Defined.

Lemma preview_csv_empty_witness :
  reader_of [] teams_csv ";" = []
  /\ preview_csv (reader_of []) sample_normalize sample_handlers teams_csv
                 ";" 10 true (Some true) []
     = (Ok false, [Markup "[yellow]Warning: CSV file is empty[/yellow]"]).
Proof.
  split; [reflexivity|].
  apply (preview_csv_empty (reader_of []) sample_normalize sample_handlers
           teams_csv ";" 10 true (Some true) []).
  reflexivity.
Defined.

Lemma read_csv_rows_bounded_prefix_witness :
  1 <= 2
  /\ read_csv_rows (reader_of ragged_file) teams_csv "," (Some 2)
     = [ ["a"; "b"]; ["c"; "d"; "e"; "f"] ]
  /\ List.length (read_csv_rows (reader_of ragged_file) teams_csv "," (Some 2))
     = 2%nat.
Proof.
  split; [lia|].
  apply (read_csv_rows_bounded_prefix (reader_of ragged_file) teams_csv "," 2).
  lia.
Defined.

(* ================================================================= *)
(** ** Further properties at sample files *)

(** X4: Reading is idempotent: a file that holds the rows read from another
    is read back as those same rows, their cells being trimmed already. *)
Theorem read_csv_rows_idempotent (csv_reader : Path -> string -> list Row)
    (file_path file_path' : Path) (delimiter delimiter' : string)
    (max_rows : option Z) :
  read_csv_rows
    (reader_of (read_csv_rows csv_reader file_path delimiter max_rows))
    file_path' delimiter' None
  = read_csv_rows csv_reader file_path delimiter max_rows.
Proof.
  rewrite read_csv_rows_all. unfold reader_of.
  destruct (read_csv_rows_prefix csv_reader file_path delimiter max_rows)
    as [n ->].
  rewrite map_map. apply map_ext. intros record.
  rewrite map_map. apply map_ext. intros cell. apply strip_idempotent.
Qed.

Lemma read_csv_rows_negative_limit_witness :
  -1 < 0
  /\ read_csv_rows (reader_of ragged_file) teams_csv "," (Some (-1)) = [].
Proof.
  split; [lia|].
  apply (read_csv_rows_negative_limit (reader_of ragged_file) teams_csv ","
           (-1)).
  lia.
Defined.

Lemma read_csv_rows_keeps_cells_witness :
  nth_error
    (read_csv_rows (reader_of [ ["  Team A  "; "   "] ]) teams_csv "," None)
    0
  = Some ["Team A"; ""]
  /\ exists record,
       nth_error (reader_of [ ["  Team A  "; "   "] ] teams_csv ",") 0
       = Some record
       /\ ["Team A"; ""] = List.map Py.strip record
       /\ Py.len ["Team A"; ""] = Py.len record
       /\ forall j cell,
            nth_error record j = Some cell -> all_space cell = true ->
            nth_error ["Team A"; ""] j = Some EmptyString.
Proof.
  split; [reflexivity|].
  apply (read_csv_rows_keeps_cells (reader_of [ ["  Team A  "; "   "] ])
           teams_csv "," None 0 ["Team A"; ""]).
  reflexivity.
Defined.

Lemma detect_header_row_first_record_witness :
  detect_header_row (reader_of header_file) teams_csv ","
  = detect_header_row
      (reader_of [ ["ID"; "NAME"; "Affiliation"; "Country"]; []; ["x"] ])
      teams_csv ";".
Proof.
  apply (detect_header_row_first_record
           (fun file_path delimiter =>
              if String.eqb delimiter ","
              then header_file
              else [ ["ID"; "NAME"; "Affiliation"; "Country"]; []; ["x"] ])
           teams_csv teams_csv "," ";"
           ["id"; "name"; "affiliation"; "country"]
           ["ID"; "NAME"; "Affiliation"; "Country"]
           ["1"; "Team Alpha"; "University A"; "USA"] []
           [] [ ["x"] ]); reflexivity.
Defined.

(** The limit of [str] lies far above the counts of the sample files. *)
Lemma str_limit_large : 1000000 < Py.str_limit.
Proof.
  unfold Py.str_limit.
  replace (Z.of_nat Py.int_max_str_digits) with 4300
    by (vm_compute; reflexivity).
  apply Z.lt_le_trans with (10 ^ 7); [reflexivity|].
  apply Z.pow_le_mono_r; lia.
Qed.

Lemma sample_writable (n : Z) : n < 1000000 -> n < Py.str_limit.
Proof. intros H. pose proof str_limit_large. lia. Qed.

(** A cell that closes a tag nobody opened: the console refuses the
    table, and the preview raises MarkupError with nothing printed. *)
Example preview_csv_refused_cell :
  preview_csv (reader_of [ ["name"; "aff"]; ["Team [/b]"; "Uni"] ])
              sample_normalize sample_handlers teams_csv "," 10 true None []
  = (Raise MarkupError, []).
Proof. vm_compute. reflexivity. Qed.

(** An answer that closes a tag nobody opened ends the loop for a
    required column with MarkupError; the answer "2" behind it is not
    read. *)
Example ask_required_column_refused_answer :
  ask_required_column sample_normalize sample_handlers ["[/x]"; "2"] 3 []
  = (Raise MarkupError, [])
  /\ validate_column_index sample_normalize sample_handlers "[/x]" 5 []
     = (Raise MarkupError, [])
  /\ validate_column_index sample_normalize sample_handlers "[x]" 5 []
     = (Ok None, [Markup "[red]Invalid column number: [x][/red]"]).
Proof. repeat split; vm_compute; reflexivity. Qed.


Lemma preview_csv_negative_limit_witness :
  -1 < 0
  /\ preview_csv (reader_of header_file) sample_normalize sample_handlers
                 teams_csv "," (-1) true (Some true) []
     = (Ok false, [Markup "[yellow]Warning: CSV file is empty[/yellow]"]).
Proof.
  split; [lia|].
  apply (preview_csv_negative_limit (reader_of header_file) sample_normalize
           sample_handlers teams_csv "," (-1) true (Some true) []).
  lia.
Defined.




Lemma validate_column_index_monotone_witness :
  fst (validate_column_index sample_normalize sample_handlers "$3" 4 [])
  = Ok (Some 3)
  /\ 4 <= 9
  /\ fst (validate_column_index sample_normalize sample_handlers "$3" 9 [])
     = Ok (Some 3).
Proof.
  split; [reflexivity|]. split; [lia|].
  apply (validate_column_index_monotone sample_normalize sample_handlers
           "$3" 4 9 3 [] []);
    [reflexivity|lia].
Defined.

Lemma validate_column_index_names_a_cell_witness :
  get_column_count (reader_of ragged_file) teams_csv "," = Ok 4
  /\ fst (validate_column_index sample_normalize sample_handlers "4" 4 [])
     = Ok (Some 4)
  /\ exists record cell,
       In record (firstn 5 (reader_of ragged_file teams_csv ","))
       /\ nth_error record (Z.to_nat (4 - 1)) = Some cell.
Proof.
  split; [reflexivity|]. split; [reflexivity|].
  apply (validate_column_index_names_a_cell (reader_of ragged_file)
           sample_normalize sample_handlers teams_csv "," "4" 4 4 []);
    reflexivity.
Defined.

Lemma validate_column_index_accepts_number_witness :
  1 <= 12 <= 40
  /\ (String.length (Py.str 12) <= Py.int_max_str_digits)%nat
  /\ validate_column_index sample_normalize sample_handlers "12" 40 []
     = (Ok (Some 12), [])
  /\ validate_column_index sample_normalize sample_handlers "$12" 40 []
     = (Ok (Some 12), []).
Proof.
  assert (Hlen : (String.length (Py.str 12) <= Py.int_max_str_digits)%nat)
    by (apply Nat.leb_le; reflexivity).
  split; [lia|]. split; [exact Hlen|].
  apply (validate_column_index_accepts_number sample_normalize
           sample_handlers 12 40 []); [lia|exact Hlen].
Defined.

Lemma ask_required_column_no_columns_witness :
  Forall (fun record => record = [])
         (firstn 5 (reader_of [] teams_csv ","))
  /\ get_column_count (reader_of []) teams_csv "," = Ok 0
  /\ (forall (r : asked Z) (out' : Console),
        ask_required_column sample_normalize sample_handlers
                            ["1"; "$2"; "name"] 0 []
        = (Ok r, out') ->
        r = Asking /\ List.length out' = (0 + 3)%nat)
  /\ (Forall (fun a => has_bracket a = false) ["1"; "$2"; "name"] ->
      exists out' : Console,
        ask_required_column sample_normalize sample_handlers
                            ["1"; "$2"; "name"] 0 []
        = (Ok Asking, out')).
Proof.
  split; [constructor|].
  apply (ask_required_column_no_columns (reader_of []) sample_normalize
           sample_handlers teams_csv "," ["1"; "$2"; "name"] []).
  constructor.
Defined.

